(** * MovieRatings: the ALS recommendation script [movie_recs_ml.py]

    The script is one straight line of calls into a data-processing
    engine: create a context, load a collection, split it, fit ALS,
    evaluate, recommend four times, write one table, show four tables,
    stop.  The embedding below gives
    - the tables the script handles ([DataFrame]: a schema and rows),
    - the engine calls the script makes (pyspark and the MongoDB
      connector, which are not part of the repository), as functions over
      tables that follow their documented behaviour; the two parts left
      open, the numeric ALS solver and the pseudo-random sampler, are
      Section variables,
    - the process state the script threads through its calls ([World]:
      document store, standard output, session, call trace) in a small
      state-and-exception monad,
    - the script itself ([main]), statement by statement. *)

From Stdlib Require Import Ascii String QArith.
From stdpp Require Import gmap strings list sorting.

Local Open Scope Z_scope.
Local Open Scope string_scope.
Local Open Scope list_scope.

(** ** Tables *)

(** [pyspark.sql.types]: the types the script names, plus the
    single-precision type of the scores ALS produces. *)
#[warnings="-register-all"]
Inductive DataType : Type :=
| IntegerType
| FloatType
| DoubleType
| ArrayType (elementType : DataType)
| StructType (fields : list (string * DataType)).

Definition StructField (name : string) (dataType : DataType) : string * DataType :=
  (name, dataType).

(** A cell.  [VFloat] is a single-precision number, [VDouble] a
    double-precision one; both carry the rational they denote, so the
    widening conversion keeps the number and changes the tag.  [VNaN] is
    the not-a-number of either precision. *)
#[warnings="-register-all"]
Inductive Value : Type :=
| VNull
| VInt (n : Z)
| VFloat (x : Q)
| VDouble (x : Q)
| VNaN
| VArray (vs : list Value)
| VStruct (vs : list Value).

Definition Row : Type := list Value.

Record DataFrame : Type := mkDataFrame {
  schema : list (string * DataType);
  rows : list Row
}.

Definition Q_eqb (a b : Q) : bool :=
  Z.eqb (Qnum a) (Qnum b) && Pos.eqb (Qden a) (Qden b).

Fixpoint Value_eqb (a b : Value) {struct a} : bool :=
  let fix all2 (xs ys : list Value) {struct xs} : bool :=
    match xs, ys with
    | [], [] => true
    | x :: xs', y :: ys' => Value_eqb x y && all2 xs' ys'
    | _, _ => false
    end in
  match a, b with
  | VNull, VNull => true
  | VInt n, VInt m => Z.eqb n m
  | VFloat x, VFloat y => Q_eqb x y
  | VDouble x, VDouble y => Q_eqb x y
  | VNaN, VNaN => true
  | VArray xs, VArray ys => all2 xs ys
  | VStruct xs, VStruct ys => all2 xs ys
  | _, _ => false
  end.

Fixpoint Row_eqb (r s : Row) : bool :=
  match r, s with
  | [], [] => true
  | x :: r', y :: s' => Value_eqb x y && Row_eqb r' s'
  | _, _ => false
  end.

(** Position of a column in a schema. *)
Fixpoint col_index (name : string) (sch : list (string * DataType)) : option nat :=
  match sch with
  | [] => None
  | (n, _) :: sch' =>
      if String.eqb n name then Some 0%nat
      else match col_index name sch' with
           | Some i => Some (S i)
           | None => None
           end
  end.

Fixpoint col_indices (names : list string) (sch : list (string * DataType))
  : option (list nat) :=
  match names with
  | [] => Some []
  | n :: names' =>
      match col_index n sch, col_indices names' sch with
      | Some i, Some ixs => Some (i :: ixs)
      | _, _ => None
      end
  end.

Definition cell (i : nat) (r : Row) : Value := nth i r VNull.

(** [df.select(c1, ..., cn)]: projection on named columns; [None] when a
    column is not in the schema (the engine raises an analysis error). *)
Definition select (names : list string) (df : DataFrame) : option DataFrame :=
  match col_indices names df.(schema) with
  | Some ixs =>
      Some {| schema := map (fun i => nth i df.(schema) ("", IntegerType)) ixs;
              rows := map (fun r => map (fun i => cell i r) ixs) df.(rows) |}
  | None => None
  end.

(** [df.distinct()]: first occurrence of every row. *)
Fixpoint dedup (rs : list Row) : list Row :=
  match rs with
  | [] => []
  | r :: rs' => r :: filter (fun s => negb (Row_eqb r s)) (dedup rs')
  end.

Definition distinct (df : DataFrame) : DataFrame :=
  {| schema := df.(schema); rows := dedup df.(rows) |}.

(** [df.limit(n)] *)
Definition limit (n : nat) (df : DataFrame) : DataFrame :=
  {| schema := df.(schema); rows := firstn n df.(rows) |}.

(** [Column.cast(t)] on one cell, for the conversions a column of
    integers, single-precision numbers, arrays and structs can undergo
    towards the types above: an integer stays, a single-precision number
    widens to double precision, arrays convert element by element and
    structs field by field, by position.  Narrowing a double to single
    precision rounds and is not modelled ([None]). *)
Fixpoint cast (to : DataType) (v : Value) {struct to} : option Value :=
  match v with
  | VNull => Some VNull
  | _ =>
    match to with
    | IntegerType => match v with VInt n => Some (VInt n) | _ => None end
    | FloatType =>
        match v with
        | VFloat x => Some (VFloat x)
        | VNaN => Some VNaN
        | _ => None
        end
    | DoubleType =>
        match v with
        | VFloat x => Some (VDouble x)
        | VDouble x => Some (VDouble x)
        | VNaN => Some VNaN
        | _ => None
        end
    | ArrayType t =>
        match v with
        | VArray vs =>
            match mapM (cast t) vs with
            | Some vs' => Some (VArray vs')
            | None => None
            end
        | _ => None
        end
    | StructType fields =>
        match v with
        | VStruct vs =>
            let fix go (fs : list (string * DataType)) (vs : list Value)
                  {struct fs} : option (list Value) :=
              match fs, vs with
              | [], [] => Some []
              | (_, t) :: fs', v :: vs' =>
                  match cast t v, go fs' vs' with
                  | Some v', Some r => Some (v' :: r)
                  | _, _ => None
                  end
              | _, _ => None
              end in
            match go fields vs with
            | Some vs' => Some (VStruct vs')
            | None => None
            end
        | _ => None
        end
    end
  end.

(** [df.withColumn(name, df[name].cast(t))]: the column keeps its place
    and name, takes type [t], and every cell is converted. *)
Definition withColumn_cast (name : string) (to : DataType) (df : DataFrame)
  : option DataFrame :=
  match col_index name df.(schema) with
  | Some i =>
      match mapM (fun r => match cast to (cell i r) with
                           | Some v => Some (<[i:=v]> r)
                           | None => None
                           end) df.(rows) with
      | Some rs => Some {| schema := <[i:=(name, to)]> df.(schema); rows := rs |}
      | None => None
      end
  | None => None
  end.

(** ** The document store *)

(** The connection string [mongodb://host/db.collection?options]: the part
    between the scheme and the first slash is the host, the part between
    that slash and the question mark the namespace. *)
Fixpoint before (c : ascii) (s : string) : string :=
  match s with
  | EmptyString => EmptyString
  | String a s' => if Ascii.eqb a c then EmptyString else String a (before c s')
  end.

Fixpoint after (c : ascii) (s : string) : string :=
  match s with
  | EmptyString => EmptyString
  | String a s' => if Ascii.eqb a c then s' else after c s'
  end.

Definition strip_scheme (uri : string) : option string :=
  if String.prefix "mongodb://" uri
  then Some (String.substring 10 (String.length uri - 10) uri)
  else None.

Record Namespace : Type := mkNamespace {
  ns_host : string;
  ns_database : string;
  ns_collection : string
}.

Definition parse_uri (uri : string) : option Namespace :=
  match strip_scheme uri with
  | Some rest =>
      let path := before "?"%char (after "/"%char rest) in
      Some {| ns_host := before "/"%char rest;
              ns_database := before "."%char path;
              ns_collection := after "."%char path |}
  | None => None
  end.

(** The key of a collection in the store. *)
Definition ns_key (n : Namespace) : string :=
  n.(ns_host) ++ "/" ++ n.(ns_database) ++ "." ++ n.(ns_collection).

(** The connector's options: [uri], and [collection] when given, which
    replaces the collection named in the connection string. *)
Definition target (uri : string) (collection : option string) : option string :=
  match parse_uri uri with
  | Some n =>
      Some (ns_key match collection with
                   | Some c => {| ns_host := n.(ns_host);
                                  ns_database := n.(ns_database);
                                  ns_collection := c |}
                   | None => n
                   end)
  | None => None
  end.

(** A collection is kept with the schema the connector infers for it; a
    collection that does not exist loads as the empty table. *)
Definition empty_table : DataFrame := {| schema := []; rows := [] |}.

Definition load_collection (st : gmap string DataFrame) (key : string) : DataFrame :=
  match st !! key with
  | Some df => df
  | None => empty_table
  end.

Inductive SaveMode : Type := Append | Overwrite | ErrorIfExists | Ignore.

(** [DataFrameWriter.mode(s)] *)
Definition save_mode (s : string) : option SaveMode :=
  if String.eqb s "overwrite" then Some Overwrite
  else if String.eqb s "append" then Some Append
  else if String.eqb s "ignore" then Some Ignore
  else if String.eqb s "error" || String.eqb s "errorifexists" || String.eqb s "default"
       then Some ErrorIfExists
  else None.

(** The connector's four write modes: overwrite drops the collection and
    inserts the table; append inserts after what is there; the other two
    look at whether the collection exists. *)
Definition save_collection (m : SaveMode) (key : string) (df : DataFrame)
    (st : gmap string DataFrame) : option (gmap string DataFrame) :=
  match m with
  | Overwrite => Some (<[key := df]> (delete key st))
  | Append =>
      match st !! key with
      | Some old => Some (<[key := {| schema := old.(schema);
                                      rows := old.(rows) ++ df.(rows) |}]> st)
      | None => Some (<[key := df]> st)
      end
  | ErrorIfExists =>
      match st !! key with
      | Some _ => None
      | None => Some (<[key := df]> st)
      end
  | Ignore =>
      match st !! key with
      | Some _ => Some st
      | None => Some (<[key := df]> st)
      end
  end.

(** ** ALS and the evaluator *)

Record Rating : Type := mkRating { r_user : Z; r_item : Z; r_rating : Q }.

(** [pyspark.ml.recommendation.ALS]: the parameters the script sets, and
    [predictionCol], which it leaves at its default. *)
Record ALSParams : Type := mkALS {
  maxIter : Z;
  regParam : Q;
  userCol : string;
  itemCol : string;
  ratingCol : string;
  coldStartStrategy : string;
  predictionCol : string
}.

(** The constructor validates its parameters. *)
Definition ALS (maxIter : Z) (regParam : Q) (userCol itemCol ratingCol : string)
    (coldStartStrategy : string) : option ALSParams :=
  if Z.leb 0 maxIter && Qle_bool 0 regParam
     && (String.eqb coldStartStrategy "nan" || String.eqb coldStartStrategy "drop")
  then Some {| maxIter := maxIter; regParam := regParam;
               userCol := userCol; itemCol := itemCol; ratingCol := ratingCol;
               coldStartStrategy := coldStartStrategy;
               predictionCol := "prediction" |}
  else None.

Definition getUserCol (p : ALSParams) : string := p.(userCol).
Definition getItemCol (p : ALSParams) : string := p.(itemCol).

(** A number read from a cell. *)
Inductive Num : Type := NaN | Fin (q : Q).

Definition as_int (v : Value) : option Z :=
  match v with VInt n => Some n | _ => None end.

Definition as_num (v : Value) : option Num :=
  match v with
  | VInt n => Some (Fin (inject_Z n))
  | VFloat x | VDouble x => Some (Fin x)
  | VNaN => Some NaN
  | _ => None
  end.

(** The (user, item, rating) triples of a table, read through the three
    column names; [None] when a column is missing or a cell is not a number. *)
Definition ratings_of (p : ALSParams) (df : DataFrame) : option (list Rating) :=
  match col_index p.(userCol) df.(schema), col_index p.(itemCol) df.(schema),
        col_index p.(ratingCol) df.(schema) with
  | Some u, Some i, Some r =>
      mapM (fun row =>
              match as_int (cell u row), as_int (cell i row), as_num (cell r row) with
              | Some a, Some b, Some (Fin x) =>
                  Some {| r_user := a; r_item := b; r_rating := x |}
              | _, _, _ => None
              end) df.(rows)
  | _, _, _ => None
  end.

(** The fitted model: the users and items that have learned factors (those
    of the training table) and the score of every such pair. *)
Record ALSModel : Type := mkModel {
  m_params : ALSParams;
  userIds : list Z;
  itemIds : list Z;
  score : Z -> Z -> Q
}.

(** The value an evaluator returns: a double, kept as the exact number it
    approximates. *)
Inductive Double : Type := DNaN | DRat (q : Q) | DSqrt (q : Q).

Record RegressionEvaluator : Type := mkEvaluator {
  metricName : string;
  labelCol : string;
  ev_predictionCol : string
}.

Definition sq_err (lp : Q * Q) : Q := (snd lp - fst lp) * (snd lp - fst lp).

Definition mean_sq_err (lps : list (Q * Q)) : Q :=
  foldr Qplus 0%Q (map sq_err lps) / inject_Z (Z.of_nat (length lps)).

(** (label, prediction) of every row; [Some None] marks a table with a
    not-a-number in it. *)
Fixpoint label_pred (l p : nat) (rs : list Row) : option (option (list (Q * Q))) :=
  match rs with
  | [] => Some (Some [])
  | r :: rs' =>
      match as_num (cell l r), as_num (cell p r), label_pred l p rs' with
      | Some (Fin x), Some (Fin y), Some (Some lps) => Some (Some ((x, y) :: lps))
      | Some _, Some _, Some _ => Some None
      | _, _, _ => None
      end
  end.

(** [evaluator.evaluate(df)] for the metrics [rmse] and [mse]; the
    summarizer behind it refuses a table without rows. *)
Definition evaluate (ev : RegressionEvaluator) (df : DataFrame) : option Double :=
  match col_index ev.(labelCol) df.(schema),
        col_index ev.(ev_predictionCol) df.(schema) with
  | Some l, Some p =>
      match df.(rows), label_pred l p df.(rows) with
      | [], _ => None
      | _, Some (Some lps) =>
          if String.eqb ev.(metricName) "rmse" then Some (DSqrt (mean_sq_err lps))
          else if String.eqb ev.(metricName) "mse" then Some (DRat (mean_sq_err lps))
          else None
      | _, Some None =>
          if String.eqb ev.(metricName) "rmse" || String.eqb ev.(metricName) "mse"
          then Some DNaN else None
      | _, None => None
      end
  | _, _ => None
  end.

(** [model.transform(df)]: a prediction column is appended.  A row whose
    user or item has no factors is a cold-start row: under strategy
    [drop] it leaves the table, otherwise its prediction is not-a-number. *)
Definition known (m : ALSModel) (u i : Z) : bool :=
  bool_decide (u ∈ m.(userIds)) && bool_decide (i ∈ m.(itemIds)).

Definition predict_row (m : ALSModel) (u i : nat) (row : Row) : option (list Row) :=
  match as_int (cell u row), as_int (cell i row) with
  | Some a, Some b =>
      Some (if known m a b then [row ++ [VFloat (m.(score) a b)]]
            else if String.eqb m.(m_params).(coldStartStrategy) "drop" then []
            else [row ++ [VNaN]])
  | _, _ => None
  end.

Definition transform (m : ALSModel) (df : DataFrame) : option DataFrame :=
  match col_index m.(m_params).(userCol) df.(schema),
        col_index m.(m_params).(itemCol) df.(schema) with
  | Some u, Some i =>
      match mapM (predict_row m u i) df.(rows) with
      | Some rss =>
          Some {| schema := df.(schema) ++ [(m.(m_params).(predictionCol), FloatType)];
                  rows := concat rss |}
      | None => None
      end
  | _, _ => None
  end.

(** ** Recommendations *)

(** Order of a recommendation list: higher score first. *)
Definition by_score_desc : relation (Z * Q) := fun a b => (snd b <= snd a)%Q.

#[global] Instance by_score_desc_dec : RelDecision by_score_desc.
Proof.
  intros a b. unfold by_score_desc.
  destruct (Qlt_le_dec (snd a) (snd b)) as [Hlt | Hle].
  - right. apply Qlt_not_le, Hlt.
  - left. exact Hle.
Defined.

(** The [k] best of [objs] under the scoring [f]: every object is scored,
    the scored list is sorted, the first [k] are kept.  Among objects of
    equal score the order, and which of them pass the cut, are this
    sort's; the engine promises none, and the statements on the lists
    below do not depend on it. *)
Definition top (k : nat) (objs : list Z) (f : Z -> Q) : list (Z * Q) :=
  firstn k (merge_sort by_score_desc (map (fun i => (i, f i)) objs)).

Definition rec_struct (e : Z * Q) : Value := VStruct [VInt (fst e); VFloat (snd e)].

Definition rec_cell (l : list (Z * Q)) : Value := VArray (map rec_struct l).

Definition rec_schema (subject object : string) : list (string * DataType) :=
  [ (subject, IntegerType);
    ("recommendations",
     ArrayType (StructType [(object, IntegerType); ("rating", FloatType)])) ].

Definition user_rows (m : ALSModel) (k : nat) (users : list Z) : list Row :=
  map (fun u => [VInt u; rec_cell (top k m.(itemIds) (m.(score) u))]) users.

Definition item_rows (m : ALSModel) (k : nat) (items : list Z) : list Row :=
  map (fun i => [VInt i; rec_cell (top k m.(userIds) (fun u => m.(score) u i))]) items.

Definition recommendForAllUsers (m : ALSModel) (numItems : nat) : DataFrame :=
  {| schema := rec_schema m.(m_params).(userCol) m.(m_params).(itemCol);
     rows := user_rows m numItems m.(userIds) |}.

Definition recommendForAllItems (m : ALSModel) (numUsers : nat) : DataFrame :=
  {| schema := rec_schema m.(m_params).(itemCol) m.(m_params).(userCol);
     rows := item_rows m numUsers m.(itemIds) |}.

(** The ids in column [col] of a subset table. *)
Definition subset_ids (col : string) (ds : DataFrame) : option (list Z) :=
  match col_index col ds.(schema) with
  | Some c => mapM (fun r => as_int (cell c r)) ds.(rows)
  | None => None
  end.

Definition recommendForUserSubset (m : ALSModel) (ds : DataFrame) (numItems : nat)
  : option DataFrame :=
  match subset_ids m.(m_params).(userCol) ds with
  | Some ids =>
      Some {| schema := rec_schema m.(m_params).(userCol) m.(m_params).(itemCol);
              rows := user_rows m numItems
                        (filter (fun u => u ∈ ids) m.(userIds)) |}
  | None => None
  end.

Definition recommendForItemSubset (m : ALSModel) (ds : DataFrame) (numUsers : nat)
  : option DataFrame :=
  match subset_ids m.(m_params).(itemCol) ds with
  | Some ids =>
      Some {| schema := rec_schema m.(m_params).(itemCol) m.(m_params).(userCol);
              rows := item_rows m numUsers
                        (filter (fun i => i ∈ ids) m.(itemIds)) |}
  | None => None
  end.

(** ** The process *)

Inductive RecKind : Type := AllUsers | AllItems | UserSubset | ItemSubset.

(** The calls the script makes, with what it passes. *)
Inductive Event : Type :=
| EvSparkContext (appName : string) (conf : list (string * string))
| EvSetLevel (logger level : string)
| EvSQLContext
| EvLoad (format uri : string)
| EvSelect (cols : list string)
| EvRandomSplit (weights : list Q) (seed : option Z)
| EvALS (p : ALSParams)
| EvFit (p : ALSParams) (training : DataFrame)
| EvTransform (df : DataFrame)
| EvEvaluator (ev : RegressionEvaluator)
| EvEvaluate (ev : RegressionEvaluator)
| EvPrint
| EvRecommend (kind : RecKind) (k : nat)
| EvCast (col : string) (to : DataType)
| EvSave (format uri collection mode : string) (df : DataFrame)
| EvDistinct
| EvLimit (n : nat)
| EvShow
| EvStop.

Inductive Output : Type :=
| Line (text : string) (value : Double)
| Table (df : DataFrame).

Inductive Session : Type :=
| NoSession
| Live (appName : string) (conf : list (string * string))
| Stopped.

(** What a run can touch: the document store, standard output, the
    session, the logger levels, the host's random numbers and how many
    were drawn, the calls completed so far, and which calls the engine
    fails ([faults n]: the call number [n] of the run does not complete). *)
Record World : Type := mkWorld {
  store : gmap string DataFrame;
  stdout : list Output;
  session : Session;
  levels : list (string * string);
  entropy : nat -> Z;
  draws : nat;
  trace : list Event;
  faults : nat -> bool
}.

Inductive Error : Type :=
| EngineFault (call : nat)
| CallError (e : Event)
| ValueError.

Inductive Outcome (A : Type) : Type :=
| Returned (a : A)
| Raised (e : Error).
Arguments Returned {A} a.
Arguments Raised {A} e.

Definition Script (A : Type) : Type := World -> Outcome A * World.

Definition ret {A : Type} (a : A) : Script A := fun w => (Returned a, w).

Definition bind {A B : Type} (c : Script A) (k : A -> Script B) : Script B :=
  fun w => match c w with
           | (Returned a, w') => k a w'
           | (Raised e, w') => (Raised e, w')
           end.

Definition raise {A : Type} (e : Error) : Script A := fun w => (Raised e, w).

Declare Scope script_scope.
Delimit Scope script_scope with script.
Notation "x <- c ;; k" := (bind c (fun x => k))
  (at level 100, c at next level, right associativity) : script_scope.
Notation "c ;;; k" := (bind c (fun _ => k))
  (at level 100, right associativity) : script_scope.
Local Open Scope script_scope.

Definition set_store (st : gmap string DataFrame) (w : World) : World :=
  {| store := st; stdout := w.(stdout); session := w.(session); levels := w.(levels);
     entropy := w.(entropy); draws := w.(draws); trace := w.(trace);
     faults := w.(faults) |}.

Definition set_stdout (o : list Output) (w : World) : World :=
  {| store := w.(store); stdout := o; session := w.(session); levels := w.(levels);
     entropy := w.(entropy); draws := w.(draws); trace := w.(trace);
     faults := w.(faults) |}.

Definition set_session (s : Session) (w : World) : World :=
  {| store := w.(store); stdout := w.(stdout); session := s; levels := w.(levels);
     entropy := w.(entropy); draws := w.(draws); trace := w.(trace);
     faults := w.(faults) |}.

Definition set_levels (l : list (string * string)) (w : World) : World :=
  {| store := w.(store); stdout := w.(stdout); session := w.(session); levels := l;
     entropy := w.(entropy); draws := w.(draws); trace := w.(trace);
     faults := w.(faults) |}.

Definition set_draws (n : nat) (w : World) : World :=
  {| store := w.(store); stdout := w.(stdout); session := w.(session);
     levels := w.(levels); entropy := w.(entropy); draws := n; trace := w.(trace);
     faults := w.(faults) |}.

Definition log (e : Event) (w : World) : World :=
  {| store := w.(store); stdout := w.(stdout); session := w.(session);
     levels := w.(levels); entropy := w.(entropy); draws := w.(draws);
     trace := w.(trace) ++ [e]; faults := w.(faults) |}.

(** One call into the engine.  The call fails when the engine fails it
    ([faults]) or refuses its arguments ([f] gives [None]); the world is
    then left as the call found it.  A call that completes applies its
    effect and is recorded.  Calls are taken as they stand in the script,
    one after the other, each with its result at hand when it returns: the
    engine's deferred evaluation of a table is not modelled, the writes,
    prints and the shutdown happen where the script has them either way. *)
Definition call {A : Type} (e : Event) (f : World -> option (A * World)) : Script A :=
  fun w =>
    if w.(faults) (length w.(trace)) then (Raised (EngineFault (length w.(trace))), w)
    else match f w with
         | Some (a, w') => (Returned a, log e w')
         | None => (Raised (CallError e), w)
         end.

(** A call without effect on the world. *)
Definition pure_call {A : Type} (e : Event) (r : option A) : Script A :=
  call e (fun w => match r with Some a => Some (a, w) | None => None end).

(** ** The script *)

Section Script.

(** The numeric solver behind [als.fit]: from the parameters and the
    training triples, the score of every (user, item). *)
Variable solve : ALSParams -> list Rating -> Z -> Z -> Q.

(** The sampler behind [randomSplit]: from a seed and the position of a
    row, a number in [0, 1). *)
Variable uniform : Z -> nat -> Q.

(** [als.fit(training)]: the engine refuses a table without ratings. *)
Definition fit (p : ALSParams) (training : DataFrame) : option ALSModel :=
  match ratings_of p training with
  | Some (r :: rs) =>
      Some {| m_params := p;
              userIds := remove_dups (map r_user (r :: rs));
              itemIds := remove_dups (map r_item (r :: rs));
              score := solve p (r :: rs) |}
  | _ => None
  end.

(** Consecutive bounds of the normalised cumulative weights. *)
Fixpoint bounds (acc total : Q) (ws : list Q) : list (Q * Q) :=
  match ws with
  | [] => []
  | w :: ws' => (acc, (acc + w / total)%Q) :: bounds (acc + w / total)%Q total ws'
  end.

(** The draw of row [i] falls in [lb, ub). *)
Definition hit (seed : Z) (lb ub : Q) (i : nat) : bool :=
  Qle_bool lb (uniform seed i) && negb (Qle_bool ub (uniform seed i)).

(** The rows whose draw falls in [lb, ub); [i] is the position of the
    first row. *)
Fixpoint sample (seed : Z) (lb ub : Q) (i : nat) (rs : list Row) : list Row :=
  match rs with
  | [] => []
  | r :: rs' => (if hit seed lb ub i then [r] else []) ++ sample seed lb ub (S i) rs'
  end.

(** The engine's split: one table per weight, all sampled with the same
    seed, so that every row falls in one of them. *)
Definition split_rows (weights : list Q) (seed : Z) (df : DataFrame)
  : option (list DataFrame) :=
  let total := foldr Qplus 0%Q weights in
  if forallb (Qle_bool 0) weights && negb (Qle_bool total 0)
  then Some (map (fun b => {| schema := df.(schema);
                              rows := sample seed (fst b) (snd b) 0 df.(rows) |})
                 (bounds 0 total weights))
  else None.

(** [random.randint(0, sys.maxsize)] *)
Definition randint : Script Z :=
  fun w => (Returned (w.(entropy) w.(draws) mod 2 ^ 63), set_draws (S w.(draws)) w).

(** [df.randomSplit(weights, seed=None)]: without a seed, one is drawn
    from the host's random numbers. *)
Definition randomSplit (weights : list Q) (seed : option Z) (df : DataFrame)
  : Script (list DataFrame) :=
  if negb (forallb (Qle_bool 0) weights) then raise ValueError
  else
    s <- match seed with Some s => ret s | None => randint end ;;
    pure_call (EvRandomSplit weights seed) (split_rows weights s df).

(** [(a, b) = xs] *)
Definition unpack2 {A : Type} (xs : list A) : Script (A * A) :=
  match xs with
  | [a; b] => ret (a, b)
  | _ => raise ValueError
  end.

Definition is_mongo (format : string) : bool :=
  String.eqb format "com.mongodb.spark.sql"
  || String.eqb format "com.mongodb.spark.sql.DefaultSource".

(** [SparkContext(conf=conf)]: one context per process. *)
Definition SparkContext (appName : string) (conf : list (string * string))
  : Script unit :=
  call (EvSparkContext appName conf)
       (fun w => match w.(session) with
                 | Live _ _ => None
                 | _ => Some (tt, set_session (Live appName conf) w)
                 end).

Definition setLevel (logger level : string) : Script unit :=
  call (EvSetLevel logger level)
       (fun w => Some (tt, set_levels ((logger, level) :: w.(levels)) w)).

(** [sqlContext.read.format(f).options(uri=uri).load()] *)
Definition load (format uri : string) : Script DataFrame :=
  call (EvLoad format uri)
       (fun w => if is_mongo format
                 then match target uri None with
                      | Some key => Some (load_collection w.(store) key, w)
                      | None => None
                      end
                 else None).

(** [df.write.format(f).options(uri=uri, collection=c).mode(m).save()].
    A write that fails is taken to leave the collection as it was; the
    connector may by then have dropped it, so nothing is stated below on
    the collection after a run that raised in the write itself. *)
Definition save (format uri collection mode : string) (df : DataFrame) : Script unit :=
  call (EvSave format uri collection mode df)
       (fun w => if is_mongo format
                 then match save_mode mode, target uri (Some collection) with
                      | Some m, Some key =>
                          match save_collection m key df w.(store) with
                          | Some st => Some (tt, set_store st w)
                          | None => None
                          end
                      | _, _ => None
                      end
                 else None).

(** [print(text + str(value))] *)
Definition print (text : string) (value : Double) : Script unit :=
  fun w => (Returned tt, log EvPrint (set_stdout (w.(stdout) ++ [Line text value]) w)).

(** [df.show()]: the first twenty rows. *)
Definition show (df : DataFrame) : Script unit :=
  call EvShow (fun w => Some (tt, set_stdout (w.(stdout) ++ [Table (limit 20 df)]) w)).

Definition stop : Script unit :=
  call EvStop (fun w => Some (tt, set_session Stopped w)).

Definition init_spark_context : Script unit :=
  SparkContext "MovieRatings" [("spark.executor.memory", "4g")].

Definition uri : string :=
  "mongodb://localhost:27017/movies.movie_ratings?readPreference=primaryPreferred".

(** The variables of the script when it ends. *)
Record Globals : Type := mkGlobals {
  g_ratings : DataFrame;
  g_training : DataFrame;
  g_test : DataFrame;
  g_als : ALSParams;
  g_model : ALSModel;
  g_predictions : DataFrame;
  g_evaluator : RegressionEvaluator;
  g_rmse : Double;
  g_userRecs : DataFrame;
  g_movieRecs : DataFrame;
  g_users : DataFrame;
  g_userSubsetRecs : DataFrame;
  g_movies : DataFrame;
  g_movieSubSetRecs : DataFrame
}.

Definition recs_type : DataType :=
  ArrayType (StructType [StructField "movie_id" IntegerType;
                         StructField "rating" DoubleType]).

Definition main : Script Globals :=
  init_spark_context ;;;
  setLevel "org" "WARN" ;;;
  pure_call EvSQLContext (Some tt) ;;;
  df <- load "com.mongodb.spark.sql" uri ;;
  ratings <- pure_call (EvSelect ["user_id"; "movie_id"; "rating"])
               (select ["user_id"; "movie_id"; "rating"] df) ;;
  parts <- randomSplit [(8 # 10)%Q; (2 # 10)%Q] None ratings ;;
  tt2 <- unpack2 parts ;;
  let training := fst tt2 in
  let test := snd tt2 in
  als <- pure_call (EvALS (mkALS 5 (1 # 100) "user_id" "movie_id" "rating" "drop" "prediction"))
           (ALS 5 (1 # 100) "user_id" "movie_id" "rating" "drop") ;;
  model <- pure_call (EvFit als training) (fit als training) ;;
  predictions <- pure_call (EvTransform test) (transform model test) ;;
  evaluator <- pure_call (EvEvaluator (mkEvaluator "rmse" "rating" "prediction"))
                 (Some (mkEvaluator "rmse" "rating" "prediction")) ;;
  rmse <- pure_call (EvEvaluate evaluator) (evaluate evaluator predictions) ;;
  print "Root-mean-square error = " rmse ;;;
  userRecs <- pure_call (EvRecommend AllUsers 10) (Some (recommendForAllUsers model 10)) ;;
  userRecs <- pure_call (EvCast "recommendations" recs_type)
                (withColumn_cast "recommendations" recs_type userRecs) ;;
  save "com.mongodb.spark.sql.DefaultSource" uri "user_recommendations" "overwrite"
       userRecs ;;;
  movieRecs <- pure_call (EvRecommend AllItems 10) (Some (recommendForAllItems model 10)) ;;
  users <- (s <- pure_call (EvSelect [getUserCol als]) (select [getUserCol als] ratings) ;;
            d <- pure_call EvDistinct (Some (distinct s)) ;;
            pure_call (EvLimit 3) (Some (limit 3 d))) ;;
  userSubsetRecs <- pure_call (EvRecommend UserSubset 10)
                      (recommendForUserSubset model users 10) ;;
  movies <- (s <- pure_call (EvSelect [getItemCol als]) (select [getItemCol als] ratings) ;;
             d <- pure_call EvDistinct (Some (distinct s)) ;;
             pure_call (EvLimit 3) (Some (limit 3 d))) ;;
  movieSubSetRecs <- pure_call (EvRecommend ItemSubset 10)
                       (recommendForItemSubset model movies 10) ;;
  show userRecs ;;;
  show movieRecs ;;;
  show userSubsetRecs ;;;
  show movieSubSetRecs ;;;
  stop ;;;
  ret {| g_ratings := ratings; g_training := training; g_test := test;
         g_als := als; g_model := model; g_predictions := predictions;
         g_evaluator := evaluator; g_rmse := rmse;
         g_userRecs := userRecs; g_movieRecs := movieRecs;
         g_users := users; g_userSubsetRecs := userSubsetRecs;
         g_movies := movies; g_movieSubSetRecs := movieSubSetRecs |}.

(** A fresh process: nothing printed, no session, no call made.  The
    store, the host's random numbers and the engine's failures are the
    run's surroundings. *)
Definition boot (st : gmap string DataFrame) (rnd : nat -> Z) (flt : nat -> bool)
  : World :=
  {| store := st; stdout := []; session := NoSession; levels := [];
     entropy := rnd; draws := 0; trace := []; faults := flt |}.

Definition run (st : gmap string DataFrame) (rnd : nat -> Z) (flt : nat -> bool)
  : Outcome Globals * World :=
  main (boot st rnd flt).

End Script.

(** ** What a run leaves behind *)

Definition key_in : string := "localhost:27017/movies.movie_ratings".
Definition key_out : string := "localhost:27017/movies.user_recommendations".

Definition the_als : ALSParams :=
  mkALS 5 (1 # 100) "user_id" "movie_id" "rating" "drop" "prediction".

Definition the_evaluator : RegressionEvaluator :=
  mkEvaluator "rmse" "rating" "prediction".

(** The calls of a run that reaches its end, in order. *)
Definition full_trace (g : Globals) : list Event :=
  [ EvSparkContext "MovieRatings" [("spark.executor.memory", "4g")];
    EvSetLevel "org" "WARN";
    EvSQLContext;
    EvLoad "com.mongodb.spark.sql" uri;
    EvSelect ["user_id"; "movie_id"; "rating"];
    EvRandomSplit [(8 # 10)%Q; (2 # 10)%Q] None;
    EvALS the_als;
    EvFit the_als g.(g_training);
    EvTransform g.(g_test);
    EvEvaluator the_evaluator;
    EvEvaluate the_evaluator;
    EvPrint;
    EvRecommend AllUsers 10;
    EvCast "recommendations" recs_type;
    EvSave "com.mongodb.spark.sql.DefaultSource" uri "user_recommendations" "overwrite"
           g.(g_userRecs);
    EvRecommend AllItems 10;
    EvSelect ["user_id"]; EvDistinct; EvLimit 3;
    EvRecommend UserSubset 10;
    EvSelect ["movie_id"]; EvDistinct; EvLimit 3;
    EvRecommend ItemSubset 10;
    EvShow; EvShow; EvShow; EvShow;
    EvStop ].

Definition full_stdout (g : Globals) : list Output :=
  [ Line "Root-mean-square error = " g.(g_rmse);
    Table (limit 20 g.(g_userRecs));
    Table (limit 20 g.(g_movieRecs));
    Table (limit 20 g.(g_userSubsetRecs));
    Table (limit 20 g.(g_movieSubSetRecs)) ].

Definition is_save (e : Event) : bool :=
  match e with EvSave _ _ _ _ _ => true | _ => false end.
Definition is_output (e : Event) : bool :=
  match e with EvPrint | EvShow => true | _ => false end.
Definition is_context (e : Event) : bool :=
  match e with EvSparkContext _ _ => true | _ => false end.
Definition is_stop (e : Event) : bool :=
  match e with EvStop => true | _ => false end.

(** How a call fails: the engine fails it, or it refuses its arguments. *)
Definition failed_at (w : World) (err : Error) : Prop :=
  (err = EngineFault (length w.(trace)) /\ w.(faults) (length w.(trace)) = true)
  \/ (forall k, err <> EngineFault k).

(** The output and the session after the calls [t] of a run. *)
Definition stdout_after (t : list Event) (g : Globals) : list Output :=
  firstn (length (List.filter is_output t)) (full_stdout g).

Definition session_after (t : list Event) : Session :=
  if existsb is_stop t then Stopped
  else if existsb is_context t
       then Live "MovieRatings" [("spark.executor.memory", "4g")]
       else NoSession.

Section Outcomes.

Variable solve : ALSParams -> list Rating -> Z -> Z -> Q.
Variable uniform : Z -> nat -> Q.

(** The keys of the collection read and of the collection written. *)
Variables kin kout : string.

(** The store after the calls [t] of a run that started from [st]. *)
Definition store_after (t : list Event) (g : Globals) (st : gmap string DataFrame)
  : gmap string DataFrame :=
  if existsb is_save t then <[kout := g.(g_userRecs)]> (delete kout st) else st.

(** Everything a run that returns went through. *)
Record Completed (st : gmap string DataFrame) (rnd : nat -> Z) (flt : nat -> bool)
    (g : Globals) (w' : World) : Prop := mkCompleted {
  ok_ratings :
    select ["user_id"; "movie_id"; "rating"] (load_collection st kin)
    = Some g.(g_ratings);
  ok_split :
    split_rows uniform [(8 # 10)%Q; (2 # 10)%Q] (rnd 0%nat mod 2 ^ 63) g.(g_ratings)
    = Some [g.(g_training); g.(g_test)];
  ok_als : g.(g_als) = the_als;
  ok_model : fit solve the_als g.(g_training) = Some g.(g_model);
  ok_predictions : transform g.(g_model) g.(g_test) = Some g.(g_predictions);
  ok_evaluator : g.(g_evaluator) = the_evaluator;
  ok_rmse : evaluate the_evaluator g.(g_predictions) = Some g.(g_rmse);
  ok_userRecs :
    withColumn_cast "recommendations" recs_type (recommendForAllUsers g.(g_model) 10)
    = Some g.(g_userRecs);
  ok_movieRecs : g.(g_movieRecs) = recommendForAllItems g.(g_model) 10;
  ok_users :
    exists s, select ["user_id"] g.(g_ratings) = Some s
              /\ g.(g_users) = limit 3 (distinct s);
  ok_userSubsetRecs :
    recommendForUserSubset g.(g_model) g.(g_users) 10 = Some g.(g_userSubsetRecs);
  ok_movies :
    exists s, select ["movie_id"] g.(g_ratings) = Some s
              /\ g.(g_movies) = limit 3 (distinct s);
  ok_movieSubSetRecs :
    recommendForItemSubset g.(g_model) g.(g_movies) 10 = Some g.(g_movieSubSetRecs);
  ok_world :
    w' = {| store := <[kout := g.(g_userRecs)]> (delete kout st);
            stdout := full_stdout g;
            session := Stopped;
            levels := [("org", "WARN")];
            entropy := rnd;
            draws := 1;
            trace := full_trace g;
            faults := flt |}
}.

(** A run that raised after [n] calls. *)
Record Stalled (st : gmap string DataFrame) (n : nat) (g : Globals) (w' : World)
  : Prop := mkStalled {
  st_trace : w'.(trace) = firstn n (full_trace g);
  st_store : w'.(store) = store_after (firstn n (full_trace g)) g st;
  st_stdout : w'.(stdout) = stdout_after (firstn n (full_trace g)) g;
  st_session : w'.(session) = session_after (firstn n (full_trace g))
}.

(** What the first [n] calls of a run have computed: each global is bound
    once the call that gives it has completed. *)
Record Reached (st : gmap string DataFrame) (rnd : nat -> Z) (n : nat) (g : Globals)
  : Prop := mkReached {
  at_ratings :
    (4 < n)%nat ->
    select ["user_id"; "movie_id"; "rating"] (load_collection st kin)
    = Some g.(g_ratings);
  at_split :
    (5 < n)%nat ->
    split_rows uniform [(8 # 10)%Q; (2 # 10)%Q] (rnd 0%nat mod 2 ^ 63) g.(g_ratings)
    = Some [g.(g_training); g.(g_test)];
  at_model : (7 < n)%nat -> fit solve the_als g.(g_training) = Some g.(g_model);
  at_predictions :
    (8 < n)%nat -> transform g.(g_model) g.(g_test) = Some g.(g_predictions);
  at_rmse :
    (10 < n)%nat -> evaluate the_evaluator g.(g_predictions) = Some g.(g_rmse);
  at_userRecs :
    (13 < n)%nat ->
    withColumn_cast "recommendations" recs_type (recommendForAllUsers g.(g_model) 10)
    = Some g.(g_userRecs);
  at_movieRecs :
    (15 < n)%nat -> g.(g_movieRecs) = recommendForAllItems g.(g_model) 10;
  at_users :
    (18 < n)%nat ->
    exists s, select ["user_id"] g.(g_ratings) = Some s
              /\ g.(g_users) = limit 3 (distinct s);
  at_userSubsetRecs :
    (19 < n)%nat ->
    recommendForUserSubset g.(g_model) g.(g_users) 10 = Some g.(g_userSubsetRecs);
  at_movies :
    (22 < n)%nat ->
    exists s, select ["movie_id"] g.(g_ratings) = Some s
              /\ g.(g_movies) = limit 3 (distinct s);
  at_movieSubSetRecs :
    (23 < n)%nat ->
    recommendForItemSubset g.(g_model) g.(g_movies) 10 = Some g.(g_movieSubSetRecs)
}.

End Outcomes.

(** ** Reading a recommendation table *)

(** One recommendation: the object and its score, whatever the precision. *)
Definition rec_entry (v : Value) : option (Z * Q) :=
  match v with
  | VStruct [VInt i; VFloat x] => Some (i, x)
  | VStruct [VInt i; VDouble x] => Some (i, x)
  | _ => None
  end.

(** A row of a recommendation table: the subject and its list. *)
Definition rec_list (row : Row) : option (Z * list (Z * Q)) :=
  match row with
  | [VInt s; VArray vs] =>
      match mapM rec_entry vs with
      | Some l => Some (s, l)
      | None => None
      end
  | _ => None
  end.

(** A recommendation after the cast: same object, same number, double
    precision. *)
Definition rec_struct_double (e : Z * Q) : Value :=
  VStruct [VInt (fst e); VDouble (snd e)].

(** The rows of the all-users table after the cast. *)
Definition user_rows_double (m : ALSModel) (k : nat) (users : list Z) : list Row :=
  map (fun u => [VInt u; VArray (map rec_struct_double
                                     (top k m.(itemIds) (m.(score) u)))]) users.

Definition widen_row (row : Row) : Row :=
  match row with
  | [s; VArray vs] =>
      [s; VArray (map (fun v => match v with
                                | VStruct [i; VFloat x] => VStruct [i; VDouble x]
                                | _ => v
                                end) vs)]
  | _ => row
  end.

(** A schema with the three columns of the ratings. *)
Definition three_columns : list (string * DataType) :=
  [("user_id", IntegerType); ("movie_id", IntegerType); ("rating", IntegerType)].

Definition four_columns : list (string * DataType) :=
  three_columns ++ [("prediction", FloatType)].

(** The (user, item) pairs a table of ratings holds. *)
Definition rated (df : DataFrame) (u i : Z) : Prop :=
  exists row, In row df.(rows)
              /\ as_int (cell 0 row) = Some u /\ as_int (cell 1 row) = Some i.

(** A pair of the test table that the training table does not hold is
    left out of the predictions. *)
Definition unseen_pairs_excluded (g : Globals) : Prop :=
  forall row u i v,
    In row g.(g_test).(rows) ->
    as_int (cell 0 row) = Some u -> as_int (cell 1 row) = Some i ->
    ~ rated g.(g_training) u i ->
    ~ In (row ++ [v]) g.(g_predictions).(rows).


(** A test row the model can score: its user and its item have factors. *)
Definition warm (m : ALSModel) (row : Row) : bool :=
  match as_int (cell 0 row), as_int (cell 1 row) with
  | Some u, Some i => known m u i
  | _, _ => false
  end.

Definition with_prediction (m : ALSModel) (row : Row) : Row :=
  match as_int (cell 0 row), as_int (cell 1 row) with
  | Some u, Some i => row ++ [VFloat (m.(score) u i)]
  | _, _ => row
  end.

(** ** Order of the calls *)

(** The steps that follow the write in the script: the all-items call, the
    two subset calls and the four dumps. *)
Definition later_step (e : Event) : bool :=
  match e with
  | EvRecommend AllItems _ | EvRecommend UserSubset _ | EvRecommend ItemSubset _
  | EvShow => true
  | _ => false
  end.

Definition is_recommend (e : Event) : bool :=
  match e with EvRecommend _ _ => true | _ => false end.

Definition is_print (e : Event) : bool :=
  match e with EvPrint => true | _ => false end.

(** Two tables are written, after the four recommendation calls and
    before printing and shutdown. *)
Definition writes_two_after_recommending (t : list Event) : Prop :=
  length (List.filter is_save t) = 2%nat
  /\ (forall i j a b, t !! i = Some a -> is_recommend a = true ->
                      t !! j = Some b -> is_save b = true -> (i < j)%nat)
  /\ (forall i j a b, t !! i = Some a -> is_save a = true ->
                      t !! j = Some b -> is_print b = true \/ is_stop b = true ->
                      (i < j)%nat).

(** ** A sample run *)

(** A stand-in for the solver: every user is predicted the sum of the
    ratings the item received in training. *)
Definition sample_solve (p : ALSParams) (rs : list Rating) (u i : Z) : Q :=
  foldr Qplus 0%Q (map r_rating (List.filter (fun r => Z.eqb r.(r_item) i) rs)).

(** A stand-in for the sampler. *)
Definition sample_uniform (seed : Z) (i : nat) : Q :=
  ((seed + 3 * Z.of_nat i) mod 10) # 10.

Definition sample_doc (k u m : Z) (r : Q) : Row := [VInt k; VInt u; VInt m; VDouble r].

Definition sample_ratings : DataFrame :=
  {| schema := [("_id", IntegerType); ("user_id", IntegerType);
                ("movie_id", IntegerType); ("rating", DoubleType)];
     rows := [ sample_doc 1 1 10 (4 # 1); sample_doc 2 1 11 (3 # 1);
               sample_doc 3 2 10 (5 # 1); sample_doc 4 2 11 (1 # 1);
               sample_doc 5 3 11 (2 # 1); sample_doc 6 3 10 (4 # 1);
               sample_doc 7 4 13 (5 # 1) ] |}.

Definition sample_old_recs : DataFrame :=
  {| schema := [("user_id", IntegerType)]; rows := [[VInt 99]] |}.

Definition sample_store : gmap string DataFrame :=
  <["localhost:27017/movies.user_recommendations" := sample_old_recs]>
    {[ "localhost:27017/movies.movie_ratings" := sample_ratings ]}.

Definition no_fault (n : nat) : bool := false.

Definition sample_rnd (n : nat) : Z := 0.

Definition sample_rnd' (n : nat) : Z := 5.

(** The engine fails call 20 of the run, the second selection. *)
Definition fault_at_20 (n : nat) : bool := Nat.eqb n 20.


(** * Properties of the script *)

Section Facts.

Variable solve : ALSParams -> list Rating -> Z -> Z -> Q.
Variable uniform : Z -> nat -> Q.

Ltac conjs := repeat match goal with |- _ /\ _ => split end.

Lemma bind_returned {A B : Type} (c : Script A) (k : A -> Script B) w b w' :
  bind c k w = (Returned b, w') ->
  exists a w1, c w = (Returned a, w1) /\ k a w1 = (Returned b, w').
Proof.
  unfold bind. destruct (c w) as [[a | e] w1]; intros H.
  - exists a, w1. split; [reflexivity | exact H].
  - discriminate H.
Qed.

Lemma call_returned {A : Type} e (f : World -> option (A * World)) w a w' :
  call e f w = (Returned a, w') ->
  exists w0, f w = Some (a, w0) /\ w' = log e w0.
Proof.
  unfold call. destruct (faults w (length (trace w))); [discriminate |].
  destruct (f w) as [[a0 w0] |]; [| discriminate].
  intros H. inversion H; subst. exists w0. split; reflexivity.
Qed.

Lemma pure_call_returned {A : Type} e (r : option A) w a w' :
  pure_call e r w = (Returned a, w') -> r = Some a /\ w' = log e w.
Proof.
  intros H. apply call_returned in H. destruct H as (w0 & Hf & ->).
  destruct r as [a0 |]; [| discriminate]. inversion Hf; subst. split; reflexivity.
Qed.

Ltac bind_step H a w Hc :=
  apply bind_returned in H; destruct H as (a & w & Hc & H).

Ltac pure_step H a Hr :=
  let w := fresh "w" in
  let Hc := fresh "Hc" in
  let Hw := fresh "Hw" in
  bind_step H a w Hc;
  apply pure_call_returned in Hc; destruct Hc as [Hr Hw]; subst w.

Lemma target_in : target uri None = Some key_in.
Proof. vm_compute. reflexivity. Qed.

Lemma target_out : target uri (Some "user_recommendations") = Some key_out.
Proof. vm_compute. reflexivity. Qed.

Lemma load_returned format u key w a w' :
  is_mongo format = true -> target u None = Some key ->
  load format u w = (Returned a, w') ->
  a = load_collection w.(store) key /\ w' = log (EvLoad format u) w.
Proof.
  intros Hm Ht H. apply call_returned in H. destruct H as (w0 & Hf & ->).
  rewrite Hm, Ht in Hf. inversion Hf; subst. split; reflexivity.
Qed.

Lemma save_returned format u c mode df m key w a w' :
  is_mongo format = true -> save_mode mode = Some m -> target u (Some c) = Some key ->
  save format u c mode df w = (Returned a, w') ->
  exists st', save_collection m key df w.(store) = Some st'
              /\ w' = log (EvSave format u c mode df) (set_store st' w).
Proof.
  intros Hm Hs Ht H. apply call_returned in H. destruct H as (w0 & Hf & ->).
  rewrite Hm, Hs, Ht in Hf.
  destruct (save_collection m key df (store w)) as [st' |]; [| discriminate].
  inversion Hf; subst. exists st'. split; reflexivity.
Qed.

Lemma SparkContext_returned name conf w a w' :
  SparkContext name conf w = (Returned a, w') ->
  w' = log (EvSparkContext name conf) (set_session (Live name conf) w).
Proof.
  intros H. apply call_returned in H. destruct H as (w0 & Hf & ->).
  destruct (session w); inversion Hf; subst; reflexivity.
Qed.

Lemma setLevel_returned lg lv w a w' :
  setLevel lg lv w = (Returned a, w') ->
  w' = log (EvSetLevel lg lv) (set_levels ((lg, lv) :: w.(levels)) w).
Proof.
  intros H. apply call_returned in H. destruct H as (w0 & Hf & ->).
  inversion Hf; subst; reflexivity.
Qed.

Lemma show_returned df w a w' :
  show df w = (Returned a, w') ->
  w' = log EvShow (set_stdout (w.(stdout) ++ [Table (limit 20 df)]) w).
Proof.
  intros H. apply call_returned in H. destruct H as (w0 & Hf & ->).
  inversion Hf; subst; reflexivity.
Qed.

Lemma stop_returned w a w' :
  stop w = (Returned a, w') -> w' = log EvStop (set_session Stopped w).
Proof.
  intros H. apply call_returned in H. destruct H as (w0 & Hf & ->).
  inversion Hf; subst; reflexivity.
Qed.

Ltac eff_step H lem :=
  let a := fresh "a" in
  let w := fresh "w" in
  let Hc := fresh "Hc" in
  bind_step H a w Hc; apply lem in Hc; subst w.

Lemma randomSplit_returned ws df w parts w' :
  randomSplit uniform ws None df w = (Returned parts, w') ->
  split_rows uniform ws (w.(entropy) w.(draws) mod 2 ^ 63) df = Some parts
  /\ w' = log (EvRandomSplit ws None) (set_draws (S w.(draws)) w).
Proof.
  unfold randomSplit. destruct (negb (forallb (Qle_bool 0) ws)); [discriminate |].
  intros H. bind_step H s w1 Hs. unfold randint in Hs. inversion Hs; subst s w1; clear Hs.
  apply pure_call_returned in H. exact H.
Qed.

Lemma unpack2_returned {A : Type} (xs : list A) w p w' :
  unpack2 xs w = (Returned p, w') -> xs = [fst p; snd p] /\ w' = w.
Proof.
  destruct xs as [| a [| b [| c xs]]]; try discriminate.
  intros H. inversion H; subst. split; reflexivity.
Qed.

Lemma print_returned text v w a w' :
  print text v w = (Returned a, w') ->
  w' = log EvPrint (set_stdout (w.(stdout) ++ [Line text v]) w).
Proof. unfold print. intros H. inversion H; subst. reflexivity. Qed.

Lemma bind_cases {A B : Type} (c : Script A) (k : A -> Script B) w o w' :
  bind c k w = (o, w') ->
  (exists e, c w = (Raised e, w') /\ o = Raised e)
  \/ (exists a w1, c w = (Returned a, w1) /\ k a w1 = (o, w')).
Proof.
  unfold bind. destruct (c w) as [[a | e] w1]; intros H.
  - right. exists a, w1. split; [reflexivity | exact H].
  - left. inversion H; subst. exists e. split; reflexivity.
Qed.

Lemma call_raised {A : Type} e (f : World -> option (A * World)) w err w' :
  call e f w = (Raised err, w') -> w' = w /\ failed_at w err.
Proof.
  unfold call, failed_at. destruct (faults w (length (trace w))) eqn:Ef.
  - intros H. inversion H. split; [reflexivity | left; split; reflexivity].
  - destruct (f w) as [[a0 w0] |]; intros H; inversion H.
    split; [reflexivity | right; intros k; discriminate].
Qed.

Lemma pure_call_raised {A : Type} e (r : option A) w err w' :
  pure_call e r w = (Raised err, w') -> w' = w /\ failed_at w err.
Proof. apply call_raised. Qed.

Lemma randomSplit_raised ws df w err w' :
  randomSplit uniform ws None df w = (Raised err, w') ->
  (w' = w /\ forall k, err <> EngineFault k)
  \/ (w' = set_draws (S w.(draws)) w /\ failed_at w err).
Proof.
  unfold randomSplit. destruct (negb (forallb (Qle_bool 0) ws)).
  - intros H. inversion H. left. split; [reflexivity | intros k; discriminate].
  - intros H. apply bind_cases in H. destruct H as [(e & Hc & _) | (s & w1 & Hc & H)].
    + discriminate Hc.
    + unfold randint in Hc. inversion Hc; subst. apply pure_call_raised in H.
      right. exact H.
Qed.

Lemma SparkContext_raised name conf w err w' :
  SparkContext name conf w = (Raised err, w') -> w' = w /\ failed_at w err.
Proof. apply call_raised. Qed.

Lemma setLevel_raised lg lv w err w' :
  setLevel lg lv w = (Raised err, w') -> w' = w /\ failed_at w err.
Proof. apply call_raised. Qed.

Lemma load_raised format u w err w' :
  load format u w = (Raised err, w') -> w' = w /\ failed_at w err.
Proof. apply call_raised. Qed.

Lemma save_raised format u c mode df w err w' :
  save format u c mode df w = (Raised err, w') -> w' = w /\ failed_at w err.
Proof. apply call_raised. Qed.

Lemma show_raised df w err w' :
  show df w = (Raised err, w') -> w' = w /\ failed_at w err.
Proof. apply call_raised. Qed.

(** The shutdown refuses nothing: it fails only when the engine fails it. *)
Lemma stop_raised w err w' :
  stop w = (Raised err, w') ->
  w' = w /\ err = EngineFault (length w.(trace))
  /\ w.(faults) (length w.(trace)) = true.
Proof.
  unfold stop, call. destruct (faults w (length (trace w))) eqn:Ef.
  - intros H. inversion H. conjs; reflexivity.
  - discriminate.
Qed.

Lemma unpack2_raised {A : Type} (xs : list A) w err w' :
  unpack2 xs w = (Raised err, w') -> w' = w /\ forall k, err <> EngineFault k.
Proof.
  destruct xs as [| a [| b [| c xs]]]; intros H; inversion H;
    (split; [reflexivity | intros k; discriminate]).
Qed.

Ltac stalled_state n :=
  cbn beta iota; exists n; eexists (mkGlobals _ _ _ _ _ _ _ _ _ _ _ _ _ _);
  split; [lia |];
  split;
  [ constructor; unfold store_after, stdout_after, session_after;
    cbn [firstn full_trace full_stdout existsb List.filter length orb app
         is_save is_output is_stop is_context
         g_training g_test g_userRecs g_rmse g_movieRecs g_userSubsetRecs g_movieSubSetRecs
         store stdout session trace log set_store set_stdout set_session set_levels
         set_draws boot];
    reflexivity
  | ];
  split;
  [ constructor;
    cbn [g_ratings g_training g_test g_als g_model g_predictions g_evaluator
         g_rmse g_userRecs g_movieRecs g_users g_userSubsetRecs g_movies
         g_movieSubSetRecs];
    intros Hlt;
    first [ exfalso; lia | eassumption | reflexivity
          | eexists; split; [eassumption | reflexivity] ]
  | ].

Ltac refused Hne := right; split; [lia | exact Hne].

Ltac stalled n Herr :=
  let Hf := fresh "Hf" in
  let Hne := fresh "Hne" in
  stalled_state n;
  destruct Herr as [[-> Hf] | Hne];
  [ left; split; [reflexivity | exact Hf] | refused Hne ].

Ltac bind_case H a w Hc :=
  let e := fresh "e" in
  apply bind_cases in H; destruct H as [(e & Hc & ->) | (a & w & Hc & H)].

Ltac pure_case_in H n a Hr :=
  let e := fresh "e" in
  let w := fresh "w" in
  let Hc := fresh "Hc" in
  let Heq := fresh "Heq" in
  let Herr := fresh "Herr" in
  apply bind_cases in H; destruct H as [(e & Hc & Heq) | (a & w & Hc & H)];
  [ injection Heq as ->; apply pure_call_raised in Hc; destruct Hc as [-> Herr];
    stalled n Herr
  | apply pure_call_returned in Hc; destruct Hc as [Hr ->] ].

Ltac call_case H n lemF lem :=
  let a := fresh "a" in
  let w := fresh "w" in
  let Hc := fresh "Hc" in
  let Herr := fresh "Herr" in
  bind_case H a w Hc;
  [ apply lemF in Hc; destruct Hc as [-> Herr]; stalled n Herr
  | apply lem in Hc; subst w ].

Ltac pure_case H n a Hr :=
  let w := fresh "w" in
  let Hc := fresh "Hc" in
  let Herr := fresh "Herr" in
  bind_case H a w Hc;
  [ apply pure_call_raised in Hc; destruct Hc as [-> Herr]; stalled n Herr
  | apply pure_call_returned in Hc; destruct Hc as [Hr ->] ].

Section Keys.

Variables kin kout : string.
Hypothesis Hin : target uri None = Some kin.
Hypothesis Hout : target uri (Some "user_recommendations") = Some kout.

Lemma run_outcome_at st rnd flt o w' :
  run solve uniform st rnd flt = (o, w') ->
  match o with
  | Returned g => Completed solve uniform kin kout st rnd flt g w'
  | Raised e =>
      exists n g, (n < 29)%nat /\ Stalled kout st n g w'
                  /\ Reached solve uniform kin st rnd n g
                  /\ ((e = EngineFault n /\ flt n = true)
                      \/ ((n < 28)%nat /\ forall k, e <> EngineFault k))
  end.
Proof.
  unfold run, main. intros H.
  call_case H 0%nat SparkContext_raised SparkContext_returned.
  call_case H 1%nat setLevel_raised setLevel_returned.
  pure_case H 2%nat u1 Hu1.
  bind_case H df w Hload;
    [apply load_raised in Hload; destruct Hload as [-> Herr]; stalled 3%nat Herr |].
  apply (load_returned _ _ kin) in Hload; [| reflexivity | exact Hin].
  destruct Hload as [-> ->].
  pure_case H 4%nat ratings Hratings.
  bind_case H parts w Hsplit.
  { apply randomSplit_raised in Hsplit. destruct Hsplit as [[-> Hne] | [-> Herr]].
    - stalled_state 5%nat. refused Hne.
    - stalled 5%nat Herr. }
  apply randomSplit_returned in Hsplit. destruct Hsplit as [Hsplit ->].
  bind_case H tt2 w Hun;
    [apply unpack2_raised in Hun; destruct Hun as [-> Hne]; stalled_state 6%nat; refused Hne |].
  apply unpack2_returned in Hun. destruct Hun as [-> ->].
  pure_case H 6%nat als Hals. inversion Hals; subst als; clear Hals.
  pure_case H 7%nat model Hmodel.
  pure_case H 8%nat predictions Hpred.
  pure_case H 9%nat evaluator Hev. inversion Hev; subst evaluator; clear Hev.
  pure_case H 10%nat rmse Hrmse.
  bind_case H u2 w Hprint; [discriminate Hprint |].
  apply print_returned in Hprint. subst w.
  pure_case H 12%nat userRecs0 Hrecs0. inversion Hrecs0; subst userRecs0; clear Hrecs0.
  pure_case H 13%nat userRecs HuserRecs.
  bind_case H u3 w Hsave;
    [apply save_raised in Hsave; destruct Hsave as [-> Herr]; stalled 14%nat Herr |].
  apply (save_returned _ _ _ _ _ Overwrite kout) in Hsave;
    [| reflexivity | reflexivity | exact Hout].
  destruct Hsave as (st' & Hst' & ->). inversion Hst'; subst st'; clear Hst'.
  pure_case H 15%nat movieRecs HmovieRecs.
  inversion HmovieRecs; subst movieRecs; clear HmovieRecs.
  bind_case H users w Husers.
  { pure_case_in Husers 16%nat su Hsu. pure_case_in Husers 17%nat du Hdu.
    apply pure_call_raised in Husers. destruct Husers as [-> Herr]. stalled 18%nat Herr. }
  pure_step Husers su Hsu. pure_step Husers du Hdu. inversion Hdu; subst du; clear Hdu.
  apply pure_call_returned in Husers. destruct Husers as [Husers ->].
  inversion Husers; subst users; clear Husers.
  pure_case H 19%nat userSubsetRecs HuserSubsetRecs.
  bind_case H movies w Hmovies.
  { pure_case_in Hmovies 20%nat sm Hsm. pure_case_in Hmovies 21%nat dm Hdm.
    apply pure_call_raised in Hmovies. destruct Hmovies as [-> Herr]. stalled 22%nat Herr. }
  pure_step Hmovies sm Hsm. pure_step Hmovies dm Hdm. inversion Hdm; subst dm; clear Hdm.
  apply pure_call_returned in Hmovies. destruct Hmovies as [Hmovies ->].
  inversion Hmovies; subst movies; clear Hmovies.
  pure_case H 23%nat movieSubSetRecs HmovieSubSetRecs.
  call_case H 24%nat show_raised show_returned.
  call_case H 25%nat show_raised show_returned.
  call_case H 26%nat show_raised show_returned.
  call_case H 27%nat show_raised show_returned.
  bind_case H u4 w Hstop;
    [ apply stop_raised in Hstop; destruct Hstop as (-> & -> & Hf); stalled_state 28%nat;
      left; split; [reflexivity | exact Hf] |].
  apply stop_returned in Hstop. subst w.
  inversion H; subst o w'; clear H.
  constructor; cbn [g_ratings g_training g_test g_als g_model g_predictions g_evaluator
                    g_rmse g_userRecs g_movieRecs g_users g_userSubsetRecs g_movies
                    g_movieSubSetRecs]; try assumption; try reflexivity.
  - exists su. split; [exact Hsu | reflexivity].
  - exists sm. split; [exact Hsm | reflexivity].
  Unshelve. all: first [exact empty_table | exact DNaN | exact the_als | exact the_evaluator
                        | exact (mkModel the_als [] [] (fun _ _ => 0%Q))].
Qed.

End Keys.

Lemma run_returned st rnd flt g w' :
  run solve uniform st rnd flt = (Returned g, w') ->
  Completed solve uniform key_in key_out st rnd flt g w'.
Proof.
  intros H. exact (run_outcome_at key_in key_out target_in target_out _ _ _ _ _ H).
Qed.

Lemma run_raised st rnd flt e w' :
  run solve uniform st rnd flt = (Raised e, w') ->
  exists n g, (n < 29)%nat /\ Stalled key_out st n g w'
              /\ ((e = EngineFault n /\ flt n = true)
                  \/ ((n < 28)%nat /\ forall k, e <> EngineFault k)).
Proof.
  intros H.
  destruct (run_outcome_at key_in key_out target_in target_out _ _ _ _ _ H)
    as (n & g & Hn & Hs & _ & He).
  exists n, g. conjs; assumption.
Qed.

Lemma run_raised_reached st rnd flt e w' :
  run solve uniform st rnd flt = (Raised e, w') ->
  exists n g, (n < 29)%nat /\ Stalled key_out st n g w'
              /\ Reached solve uniform key_in st rnd n g.
Proof.
  intros H.
  destruct (run_outcome_at key_in key_out target_in target_out _ _ _ _ _ H)
    as (n & g & Hn & Hs & Hr & _).
  exists n, g. conjs; assumption.
Qed.

(** ** Columns and projections *)

Lemma col_index_nth name sch i d :
  col_index name sch = Some i -> fst (nth i sch d) = name.
Proof.
  revert i. induction sch as [| [n t] sch IH]; intros i H; [discriminate |].
  cbn [col_index] in H. destruct (String.eqb n name) eqn:E.
  - inversion H; subst. apply String.eqb_eq in E. exact E.
  - destruct (col_index name sch) as [j |]; [| discriminate].
    inversion H; subst. cbn [nth]. apply IH. reflexivity.
Qed.

Lemma col_index_names name s1 s2 :
  map fst s1 = map fst s2 -> col_index name s1 = col_index name s2.
Proof.
  revert s2. induction s1 as [| [n t] s1 IH]; intros [| [n' t'] s2] H;
    try discriminate; [reflexivity |].
  cbn [map fst] in H. inversion H; subst. cbn [col_index].
  rewrite (IH s2); [reflexivity | assumption].
Qed.

Lemma col_indices_names names sch ixs d :
  col_indices names sch = Some ixs -> map (fun i => fst (nth i sch d)) ixs = names.
Proof.
  revert ixs. induction names as [| n names IH]; intros ixs H.
  - inversion H. reflexivity.
  - cbn [col_indices] in H.
    destruct (col_index n sch) as [i |] eqn:Ei; [| discriminate].
    destruct (col_indices names sch) as [js |]; [| discriminate].
    inversion H; subst. cbn [map]. f_equal.
    + apply col_index_nth. exact Ei.
    + apply IH. reflexivity.
Qed.

(** A projection has exactly the columns asked for, in that order. *)
Lemma select_names names df r :
  select names df = Some r -> map fst r.(schema) = names.
Proof.
  unfold select. destruct (col_indices names (schema df)) as [ixs |] eqn:E; [| discriminate].
  intros H. inversion H; subst. cbn [schema]. rewrite map_map.
  apply col_indices_names with (d := ("", IntegerType)). exact E.
Qed.

(** ** The cast of the recommendation column *)

Lemma cast_rec_struct e :
  cast (StructType [StructField "movie_id" IntegerType; StructField "rating" DoubleType])
       (rec_struct e)
  = Some (rec_struct_double e).
Proof. destruct e as [i x]. reflexivity. Qed.

Lemma mapM_cast_recs l :
  mapM (cast (StructType [StructField "movie_id" IntegerType;
                          StructField "rating" DoubleType]))
       (map rec_struct l)
  = Some (map rec_struct_double l).
Proof.
  induction l as [| e l IH]; [reflexivity |].
  cbn [map mapM]. rewrite cast_rec_struct, IH. reflexivity.
Qed.

Lemma cast_rec_cell l :
  cast recs_type (rec_cell l) = Some (VArray (map rec_struct_double l)).
Proof.
  unfold recs_type, rec_cell. cbn [cast]. rewrite mapM_cast_recs. reflexivity.
Qed.

Lemma cast_user_rows m k users :
  mapM (fun r => match cast recs_type (cell 1 r) with
                 | Some v => Some (<[1%nat := v]> r)
                 | None => None
                 end) (user_rows m k users)
  = Some (user_rows_double m k users).
Proof.
  induction users as [| u users IH]; [reflexivity |].
  unfold user_rows, user_rows_double in *. cbn [map mapM].
  change (cell 1 [VInt u; rec_cell (top k (itemIds m) (score m u))])
    with (rec_cell (top k (itemIds m) (score m u))).
  rewrite cast_rec_cell, IH. reflexivity.
Qed.

(** The cast of the all-users table never fails, and what it gives. *)
Lemma cast_userRecs m k :
  m.(m_params).(userCol) = "user_id" -> m.(m_params).(itemCol) = "movie_id" ->
  withColumn_cast "recommendations" recs_type (recommendForAllUsers m k)
  = Some {| schema := [("user_id", IntegerType); ("recommendations", recs_type)];
            rows := user_rows_double m k m.(userIds) |}.
Proof.
  intros Hu Hi. unfold withColumn_cast, recommendForAllUsers. cbn [schema rows].
  rewrite Hu, Hi.
  change (col_index "recommendations" (rec_schema "user_id" "movie_id")) with (Some 1%nat).
  cbn beta iota. rewrite cast_user_rows. reflexivity.
Qed.

Lemma widen_user_rows m k users :
  map widen_row (user_rows m k users) = user_rows_double m k users.
Proof.
  unfold user_rows, user_rows_double. rewrite map_map. apply map_ext. intros u.
  cbn [widen_row]. unfold rec_cell. rewrite map_map. reflexivity.
Qed.

Lemma fit_params p t m : fit solve p t = Some m -> m.(m_params) = p.
Proof.
  unfold fit. destruct (ratings_of p t) as [[| r rs] |]; try discriminate.
  intros H. inversion H; subst. reflexivity.
Qed.

Lemma returned_params st rnd flt g w' :
  run solve uniform st rnd flt = (Returned g, w') -> g.(g_model).(m_params) = the_als.
Proof. intros H. apply run_returned in H. apply (fit_params _ _ _ (ok_model _ _ _ _ _ _ _ _ _ H)). Qed.

Lemma returned_userRecs st rnd flt g w' :
  run solve uniform st rnd flt = (Returned g, w') ->
  g.(g_userRecs)
  = {| schema := [("user_id", IntegerType); ("recommendations", recs_type)];
       rows := user_rows_double g.(g_model) 10 g.(g_model).(userIds) |}.
Proof.
  intros H. pose proof (returned_params _ _ _ _ _ H) as Hp.
  apply run_returned in H. pose proof (ok_userRecs _ _ _ _ _ _ _ _ _ H) as Hc.
  rewrite cast_userRecs in Hc by (rewrite Hp; reflexivity).
  inversion Hc. reflexivity.
Qed.

(** ** Recommendation lists *)

#[local] Instance by_score_desc_total : Total by_score_desc.
Proof.
  intros a b. unfold by_score_desc.
  destruct (Qlt_le_dec (snd a) (snd b)) as [Hlt | Hle].
  - right. apply Qlt_le_weak, Hlt.
  - left. exact Hle.
Qed.

#[local] Instance by_score_desc_trans : Transitive by_score_desc.
Proof.
  intros a b c Hab Hbc. unfold by_score_desc in *. apply (Qle_trans _ (snd b)); assumption.
Qed.

Lemma top_length k objs f : (length (top k objs f) <= k)%nat.
Proof. unfold top. rewrite length_take. lia. Qed.

Lemma top_sorted k objs f : StronglySorted by_score_desc (top k objs f).
Proof.
  unfold top.
  apply (StronglySorted_app_1_l _ _
           (drop k (merge_sort by_score_desc (map (fun i => (i, f i)) objs)))).
  rewrite take_drop. apply StronglySorted_merge_sort; typeclasses eauto.
Qed.

(** Every entry of a list is an object of the model with its score. *)
Lemma top_In k objs f e : In e (top k objs f) -> In (fst e) objs /\ snd e = f (fst e).
Proof.
  unfold top. intros H. apply list_elem_of_In in H.
  apply subseteq_take in H. rewrite merge_sort_Permutation in H.
  apply list_elem_of_In in H. apply in_map_iff in H. destruct H as (i & <- & Hi).
  split; [exact Hi | reflexivity].
Qed.


Lemma mapM_rec_entry_float l : mapM rec_entry (map rec_struct l) = Some l.
Proof.
  induction l as [| [i x] l IH]; [reflexivity |].
  cbn [map mapM]. rewrite IH. reflexivity.
Qed.

Lemma mapM_rec_entry_double l : mapM rec_entry (map rec_struct_double l) = Some l.
Proof.
  induction l as [| [i x] l IH]; [reflexivity |].
  cbn [map mapM]. rewrite IH. reflexivity.
Qed.

Lemma rec_list_float u l : rec_list [VInt u; rec_cell l] = Some (u, l).
Proof. unfold rec_list, rec_cell. rewrite mapM_rec_entry_float. reflexivity. Qed.

Lemma rec_list_double u l :
  rec_list [VInt u; VArray (map rec_struct_double l)] = Some (u, l).
Proof. unfold rec_list. rewrite mapM_rec_entry_double. reflexivity. Qed.

Lemma user_rows_In m k users row :
  In row (user_rows m k users) ->
  exists u, In u users
            /\ rec_list row = Some (u, top k m.(itemIds) (m.(score) u)).
Proof.
  unfold user_rows. intros H. apply in_map_iff in H. destruct H as (u & <- & Hu).
  exists u. split; [exact Hu | apply rec_list_float].
Qed.

Lemma user_rows_double_In m k users row :
  In row (user_rows_double m k users) ->
  exists u, In u users
            /\ rec_list row = Some (u, top k m.(itemIds) (m.(score) u)).
Proof.
  unfold user_rows_double. intros H. apply in_map_iff in H. destruct H as (u & <- & Hu).
  exists u. split; [exact Hu | apply rec_list_double].
Qed.

Lemma item_rows_In m k items row :
  In row (item_rows m k items) ->
  exists i, In i items
            /\ rec_list row = Some (i, top k m.(userIds) (fun u => m.(score) u i)).
Proof.
  unfold item_rows. intros H. apply in_map_iff in H. destruct H as (i & <- & Hi).
  exists i. split; [exact Hi | apply rec_list_float].
Qed.

(** ** The claims *)

(** C1. Before persisting, the Writer casts the nested predicted-rating
    field of the all-users recommendation table from single precision to
    double precision (schema: array of {movie_id: integer, rating:
    double}), every number being kept, and then writes that table to the
    collection [user_recommendations] with mode overwrite: after the run
    the collection holds exactly that table, whatever it held before, and
    no other collection has changed. *)
Theorem C1_writer_casts_then_overwrites st rnd flt g w' :
  run solve uniform st rnd flt = (Returned g, w') ->
  (recommendForAllUsers g.(g_model) 10).(schema)
  = [("user_id", IntegerType);
     ("recommendations",
      ArrayType (StructType [("movie_id", IntegerType); ("rating", FloatType)]))]
  /\ withColumn_cast "recommendations" recs_type (recommendForAllUsers g.(g_model) 10)
     = Some g.(g_userRecs)
  /\ g.(g_userRecs).(schema)
     = [("user_id", IntegerType);
        ("recommendations",
         ArrayType (StructType [("movie_id", IntegerType); ("rating", DoubleType)]))]
  /\ g.(g_userRecs).(rows) = map widen_row (recommendForAllUsers g.(g_model) 10).(rows)
  /\ (exists pre post,
        w'.(trace)
        = pre ++ [EvRecommend AllUsers 10;
                  EvCast "recommendations" recs_type;
                  EvSave "com.mongodb.spark.sql.DefaultSource" uri
                         "user_recommendations" "overwrite" g.(g_userRecs)] ++ post)
  /\ save_mode "overwrite" = Some Overwrite
  /\ target uri (Some "user_recommendations") = Some key_out
  /\ w'.(store) !! key_out = Some g.(g_userRecs)
  /\ (forall k, k <> key_out -> w'.(store) !! k = st !! k).
Proof.
  intros H.
  pose proof (returned_params _ _ _ _ _ H) as Hp.
  pose proof (returned_userRecs _ _ _ _ _ H) as Hrecs.
  apply run_returned in H. destruct H.
  conjs.
  - unfold recommendForAllUsers. cbn [schema]. rewrite Hp. reflexivity.
  - assumption.
  - rewrite Hrecs. reflexivity.
  - rewrite Hrecs. cbn [rows recommendForAllUsers]. symmetry. apply widen_user_rows.
  - exists (firstn 12 (full_trace g)), (skipn 15 (full_trace g)).
    rewrite ok_world0. reflexivity.
  - reflexivity.
  - exact target_out.
  - rewrite ok_world0. cbn [store]. apply lookup_insert_eq.
  - intros k Hk. rewrite ok_world0. cbn [store].
    rewrite lookup_insert_ne by congruence. apply lookup_delete_ne. congruence.
Qed.

(** C2. The Trainer fits ALS on the training table with max iterations 5,
    regularization 0.01 and cold-start strategy "drop", the user column
    being user_id, the item column movie_id and the rating column rating;
    this is the only fit of the run, and the model keeps these parameters. *)
Theorem C2_trainer_hyperparameters st rnd flt g w' :
  run solve uniform st rnd flt = (Returned g, w') ->
  g.(g_als) = {| maxIter := 5; regParam := 1 # 100;
                 userCol := "user_id"; itemCol := "movie_id"; ratingCol := "rating";
                 coldStartStrategy := "drop"; predictionCol := "prediction" |}
  /\ ALS 5 (1 # 100) "user_id" "movie_id" "rating" "drop" = Some g.(g_als)
  /\ fit solve g.(g_als) g.(g_training) = Some g.(g_model)
  /\ g.(g_model).(m_params) = g.(g_als)
  /\ (exists test,
        split_rows uniform [(8 # 10)%Q; (2 # 10)%Q] (rnd 0%nat mod 2 ^ 63) g.(g_ratings)
        = Some [g.(g_training); test])
  /\ In (EvFit g.(g_als) g.(g_training)) w'.(trace)
  /\ (forall p t, In (EvFit p t) w'.(trace) -> p = g.(g_als) /\ t = g.(g_training)).
Proof.
  intros H. pose proof (returned_params _ _ _ _ _ H) as Hp.
  apply run_returned in H. destruct H. rewrite ok_als0, ok_world0. cbn [trace].
  conjs; try assumption; try reflexivity.
  - exists (g_test g). assumption.
  - unfold full_trace. cbn [In]. do 7 right. left. reflexivity.
  - intros p t H. unfold full_trace in H. cbn [In] in H.
    repeat (destruct H as [H | H]; try discriminate H); try contradiction.
    inversion H. split; reflexivity.
Qed.

(** C7. The Data Loader reads from the hard-coded connection string
    mongodb://localhost:27017/movies.movie_ratings?readPreference=primaryPreferred,
    that is the collection movie_ratings of the database movies, and the
    loaded table is restricted to exactly the three columns user_id,
    movie_id and rating. *)
Theorem C7_loader_uri_and_columns st rnd flt g w' :
  run solve uniform st rnd flt = (Returned g, w') ->
  uri = "mongodb://localhost:27017/movies.movie_ratings?readPreference=primaryPreferred"
  /\ parse_uri uri = Some {| ns_host := "localhost:27017"; ns_database := "movies";
                             ns_collection := "movie_ratings" |}
  /\ In (EvLoad "com.mongodb.spark.sql" uri) w'.(trace)
  /\ (forall f u, In (EvLoad f u) w'.(trace) -> u = uri)
  /\ select ["user_id"; "movie_id"; "rating"] (load_collection st key_in)
     = Some g.(g_ratings)
  /\ map fst g.(g_ratings).(schema) = ["user_id"; "movie_id"; "rating"].
Proof.
  intros H. apply run_returned in H. destruct H. rewrite ok_world0. cbn [trace].
  conjs; try assumption; try reflexivity.
  - unfold full_trace. cbn [In]. do 3 right. left. reflexivity.
  - intros f u H. unfold full_trace in H. cbn [In] in H.
    repeat (destruct H as [H | H]; try discriminate H); try contradiction.
    inversion H. reflexivity.
  - apply (select_names _ _ _ ok_ratings0).
Qed.

(** C3. For every user row of the all-users recommendation output, as
    the Recommender produces it and as it is written after the cast, the
    recommendation list has at most 10 entries and is sorted by predicted
    rating in descending order. *)
Theorem C3_all_users_top10_descending st rnd flt g w' :
  run solve uniform st rnd flt = (Returned g, w') ->
  forall t row,
    t = recommendForAllUsers g.(g_model) 10 \/ t = g.(g_userRecs) ->
    In row t.(rows) ->
    exists u l, rec_list row = Some (u, l)
                /\ (length l <= 10)%nat
                /\ StronglySorted by_score_desc l.
Proof.
  intros H t row Ht Hrow.
  pose proof (returned_userRecs _ _ _ _ _ H) as Hrecs.
  assert (Hl : exists u, rec_list row
                         = Some (u, top 10 g.(g_model).(itemIds) (g.(g_model).(score) u))).
  { destruct Ht as [-> | ->].
    - cbn [recommendForAllUsers rows] in Hrow. apply user_rows_In in Hrow.
      destruct Hrow as (u & _ & Hu). exists u. exact Hu.
    - rewrite Hrecs in Hrow. cbn [rows] in Hrow. apply user_rows_double_In in Hrow.
      destruct Hrow as (u & _ & Hu). exists u. exact Hu. }
  destruct Hl as (u & Hu). exists u, (top 10 (itemIds (g_model g)) (score (g_model g) u)).
  split; [exact Hu |]. split; [apply top_length | apply top_sorted].
Qed.

(** ** Runs that stop early *)



Lemma prefix_saved n g :
  (15 <= n)%nat -> existsb is_save (firstn n (full_trace g)) = true.
Proof.
  intros Hn. do 15 (destruct n as [| n]; [exfalso; lia |]).
  cbn [firstn full_trace existsb is_save orb]. reflexivity.
Qed.



Lemma full_trace_later g j ev :
  full_trace g !! j = Some ev -> later_step ev = true -> (14 < j)%nat.
Proof.
  intros H Hl.
  do 15 (destruct j as [| j];
         [cbn in H; inversion H; subst ev; cbn in Hl; discriminate Hl |]).
  lia.
Qed.

Lemma full_trace_save g j ev :
  full_trace g !! j = Some ev -> is_save ev = true ->
  j = 14%nat
  /\ ev = EvSave "com.mongodb.spark.sql.DefaultSource" uri "user_recommendations"
                 "overwrite" g.(g_userRecs).
Proof.
  intros H Hs.
  do 29 (destruct j as [| j];
         [cbn in H; inversion H; subst ev; cbn in Hs;
          first [discriminate Hs | split; reflexivity] |]).
  destruct j; discriminate H.
Qed.

(** C8, as amended.  Over a complete run the pipeline writes exactly one
    table to the document store, the all-users recommendation table: the
    write is call 14 of the run, after the error is printed (call 11) and
    the all-users recommendation call (call 12), and before the three
    other recommendation calls, the four dumps and the shutdown. *)
Theorem C8_one_table_written st rnd flt g w' :
  run solve uniform st rnd flt = (Returned g, w') ->
  length (List.filter is_save w'.(trace)) = 1%nat
  /\ (forall j ev, w'.(trace) !! j = Some ev -> is_save ev = true ->
                   j = 14%nat
                   /\ ev = EvSave "com.mongodb.spark.sql.DefaultSource" uri
                                  "user_recommendations" "overwrite" g.(g_userRecs))
  /\ w'.(trace) !! 11%nat = Some EvPrint
  /\ w'.(trace) !! 12%nat = Some (EvRecommend AllUsers 10)
  /\ w'.(trace) !! 14%nat
     = Some (EvSave "com.mongodb.spark.sql.DefaultSource" uri "user_recommendations"
                    "overwrite" g.(g_userRecs))
  /\ (forall j ev, w'.(trace) !! j = Some ev -> later_step ev = true -> (14 < j)%nat)
  /\ w'.(trace) !! 28%nat = Some EvStop.
Proof.
  intros H. apply run_returned in H. destruct H. rewrite ok_world0. cbn [trace].
  conjs; try reflexivity.
  - intros j ev. apply full_trace_save.
  - intros j ev. apply full_trace_later.
Qed.


(** C10. The overwrite of [user_recommendations] is call 14 of a run, right
    after the all-users recommendation call (call 12) and its cast (call
    13), and before the all-items call, the two subset calls and the four
    dumps: in every run, returned or not, such a later call is only reached
    after the write, and the collection then holds the new table.  In
    particular a run that raised after 15 calls or more, that is in one of
    those later steps, leaves the collection overwritten, whatever it held. *)
Theorem C10_overwrite_before_later_steps st rnd flt o w' :
  run solve uniform st rnd flt = (o, w') ->
  ((exists j ev, w'.(trace) !! j = Some ev /\ later_step ev = true)
   \/ ((exists e, o = Raised e) /\ (15 <= length w'.(trace))%nat)) ->
  (forall j ev, w'.(trace) !! j = Some ev -> later_step ev = true -> (14 < j)%nat)
  /\ exists df,
       w'.(trace) !! 12%nat = Some (EvRecommend AllUsers 10)
       /\ w'.(trace) !! 13%nat = Some (EvCast "recommendations" recs_type)
       /\ w'.(trace) !! 14%nat
          = Some (EvSave "com.mongodb.spark.sql.DefaultSource" uri
                         "user_recommendations" "overwrite" df)
       /\ w'.(store) !! key_out = Some df.
Proof.
  intros E Hlate. destruct o as [g | e].
  - apply run_returned in E. destruct E. rewrite ok_world0. cbn [trace store].
    split; [intros j ev; apply full_trace_later |].
    exists (g_userRecs g). conjs; try reflexivity. apply lookup_insert_eq.
  - apply run_raised in E. destruct E as (n & g & Hn & [Ht Hs Ho Hse] & Herr).
    assert (Hlen : length (firstn n (full_trace g)) = n).
    { rewrite length_take. cbn [full_trace length]. lia. }
    assert (Hn15 : (15 <= n)%nat).
    { destruct Hlate as [(j & ev & Hj & Hl) | [_ Hl]].
      - rewrite Ht in Hj. apply lookup_take_Some in Hj. destruct Hj as [Hj Hjn].
        pose proof (full_trace_later _ _ _ Hj Hl). lia.
      - rewrite Ht, Hlen in Hl. exact Hl. }
    rewrite Ht, Hs. unfold store_after. rewrite (prefix_saved n g Hn15).
    split.
    + intros j ev Hj Hl. apply lookup_take_Some in Hj. destruct Hj as [Hj _].
      apply (full_trace_later _ _ _ Hj Hl).
    + exists (g_userRecs g). rewrite !lookup_take_lt by lia.
      conjs; try reflexivity. apply lookup_insert_eq.
Qed.

(** ** The split *)

Lemma split_80_20 seed df a b :
  split_rows uniform [(8 # 10)%Q; (2 # 10)%Q] seed df = Some [a; b] ->
  a = {| schema := df.(schema);
         rows := sample uniform seed 0 (800 # 1000) 0 df.(rows) |}
  /\ b = {| schema := df.(schema);
            rows := sample uniform seed (800 # 1000) (1000000 # 1000000) 0 df.(rows) |}.
Proof.
  unfold split_rows.
  change (forallb (Qle_bool 0) [(8 # 10)%Q; (2 # 10)%Q]
          && negb (Qle_bool (foldr Qplus 0%Q [(8 # 10)%Q; (2 # 10)%Q]) 0)) with true.
  change (bounds 0 (foldr Qplus 0%Q [(8 # 10)%Q; (2 # 10)%Q]) [(8 # 10)%Q; (2 # 10)%Q])
    with [(0%Q, (800 # 1000)%Q); ((800 # 1000)%Q, (1000000 # 1000000)%Q)].
  cbn [map fst snd]. intros H. inversion H. split; reflexivity.
Qed.

(** A row is sampled when it stands at a position whose draw hits. *)
Lemma sample_In seed lb ub k rs r :
  In r (sample uniform seed lb ub k rs)
  <-> exists j, rs !! j = Some r /\ hit uniform seed lb ub (k + j) = true.
Proof.
  revert k. induction rs as [| r0 rs IH]; intros k; cbn [sample].
  - split; [intros [] | intros (j & Hj & _); discriminate Hj].
  - rewrite in_app_iff, IH. split.
    + intros [H | (j & Hj & Hh)].
      * destruct (hit uniform seed lb ub k) eqn:E; [| destruct H].
        destruct H as [<- | []]. exists 0%nat. rewrite Nat.add_0_r. split; [reflexivity | exact E].
      * exists (S j). rewrite Nat.add_succ_r. split; [exact Hj | exact Hh].
    + intros ([| j] & Hj & Hh).
      * left. rewrite Nat.add_0_r in Hh. rewrite Hh. inversion Hj. left. reflexivity.
      * right. exists j. rewrite Nat.add_succ_r in Hh. split; [exact Hj | exact Hh].
Qed.

Lemma sample_sub seed lb ub k rs r : In r (sample uniform seed lb ub k rs) -> In r rs.
Proof.
  intros H. apply sample_In in H. destruct H as (j & Hj & _).
  apply list_elem_of_In. apply list_elem_of_lookup. exists j. exact Hj.
Qed.

(** What a run that returns knows of its three tables of ratings. *)
Lemma returned_tables st rnd flt g w' :
  run solve uniform st rnd flt = (Returned g, w') ->
  map fst g.(g_ratings).(schema) = ["user_id"; "movie_id"; "rating"]
  /\ g.(g_training)
     = {| schema := g.(g_ratings).(schema);
          rows := sample uniform (rnd 0%nat mod 2 ^ 63) 0 (800 # 1000) 0
                         g.(g_ratings).(rows) |}
  /\ g.(g_test)
     = {| schema := g.(g_ratings).(schema);
          rows := sample uniform (rnd 0%nat mod 2 ^ 63) (800 # 1000) (1000000 # 1000000) 0
                         g.(g_ratings).(rows) |}.
Proof.
  intros H. apply run_returned in H. destruct H.
  split; [apply (select_names _ _ _ ok_ratings0) |].
  apply split_80_20. exact ok_split0.
Qed.

(** ** The model and the training table *)

Lemma Forall2_In_r {A B : Type} (P : A -> B -> Prop) l k y :
  Forall2 P l k -> In y k -> exists x, In x l /\ P x y.
Proof.
  induction 1 as [| x y0 l k Hxy _ IH]; intros Hin; [destruct Hin |].
  destruct Hin as [<- | Hin].
  - exists x. split; [left; reflexivity | exact Hxy].
  - destruct (IH Hin) as (x' & Hx' & HP). exists x'. split; [right; exact Hx' | exact HP].
Qed.

Lemma Forall2_In_l {A B : Type} (P : A -> B -> Prop) l k x :
  Forall2 P l k -> In x l -> exists y, In y k /\ P x y.
Proof.
  induction 1 as [| x0 y l k Hxy _ IH]; intros Hin; [destruct Hin |].
  destruct Hin as [<- | Hin].
  - exists y. split; [left; reflexivity | exact Hxy].
  - destruct (IH Hin) as (y' & Hy' & HP). exists y'. split; [right; exact Hy' | exact HP].
Qed.

Lemma ratings_of_rows t rs :
  map fst t.(schema) = ["user_id"; "movie_id"; "rating"] ->
  ratings_of the_als t = Some rs ->
  Forall2 (fun row r => as_int (cell 0 row) = Some r.(r_user)
                        /\ as_int (cell 1 row) = Some r.(r_item)) t.(rows) rs.
Proof.
  intros Hn. unfold ratings_of. cbn [the_als userCol itemCol ratingCol].
  rewrite !(col_index_names _ _ three_columns Hn).
  change (col_index "user_id" three_columns) with (Some 0%nat).
  change (col_index "movie_id" three_columns) with (Some 1%nat).
  change (col_index "rating" three_columns) with (Some 2%nat).
  cbn beta iota. intros H. apply mapM_Some in H.
  eapply Forall2_impl; [exact H |]. cbn beta. intros row r Hr.
  destruct (as_int (cell 0 row)) as [a |]; [| discriminate].
  destruct (as_int (cell 1 row)) as [b |]; [| discriminate].
  destruct (as_num (cell 2 row)) as [[| x] |]; try discriminate.
  inversion Hr. split; reflexivity.
Qed.

(** The users and the items with factors are those of the training table. *)
Lemma fit_ids t m :
  map fst t.(schema) = ["user_id"; "movie_id"; "rating"] ->
  fit solve the_als t = Some m ->
  (forall u, In u m.(userIds)
             <-> exists row, In row t.(rows) /\ as_int (cell 0 row) = Some u)
  /\ (forall i, In i m.(itemIds)
                <-> exists row, In row t.(rows) /\ as_int (cell 1 row) = Some i).
Proof.
  intros Hn. unfold fit. destruct (ratings_of the_als t) as [rs |] eqn:E; [| discriminate].
  pose proof (ratings_of_rows _ _ Hn E) as HF.
  destruct rs as [| r rs'] eqn:Ers; [discriminate |]. rewrite <- Ers in *.
  intros H. injection H as Hm. subst m. clear Ers.
  cbn [userIds itemIds]. split.
  - intros u. rewrite <- list_elem_of_In, elem_of_remove_dups, list_elem_of_In, in_map_iff.
    split.
    + intros (r0 & <- & Hr0). destruct (Forall2_In_r _ _ _ _ HF Hr0) as (row & Hrow & Hu & _).
      exists row. split; assumption.
    + intros (row & Hrow & Hu). destruct (Forall2_In_l _ _ _ _ HF Hrow) as (r0 & Hr0 & Hu' & _).
      exists r0. split; [congruence | exact Hr0].
  - intros i. rewrite <- list_elem_of_In, elem_of_remove_dups, list_elem_of_In, in_map_iff.
    split.
    + intros (r0 & <- & Hr0). destruct (Forall2_In_r _ _ _ _ HF Hr0) as (row & Hrow & _ & Hi).
      exists row. split; assumption.
    + intros (row & Hrow & Hi). destruct (Forall2_In_l _ _ _ _ HF Hrow) as (r0 & Hr0 & _ & Hi').
      exists r0. split; [congruence | exact Hr0].
Qed.

(** ** Predictions *)

Lemma predict_rows_drop m rs rss :
  m.(m_params).(coldStartStrategy) = "drop" ->
  mapM (predict_row m 0 1) rs = Some rss ->
  concat rss = map (with_prediction m) (List.filter (warm m) rs).
Proof.
  intros Hd. revert rss. induction rs as [| row rs IH]; intros rss H.
  - inversion H. reflexivity.
  - cbn [mapM] in H. unfold mbind, option_bind in H.
    destruct (predict_row m 0 1 row) as [rr |] eqn:Er; [| discriminate].
    destruct (mapM (predict_row m 0 1) rs) as [rss' |] eqn:Em; [| discriminate].
    inversion H; subst rss; clear H.
    assert (Hrr : rr = if warm m row then [with_prediction m row] else []).
    { unfold predict_row in Er. unfold warm, with_prediction.
      destruct (as_int (cell 0 row)) as [a |]; [| discriminate].
      destruct (as_int (cell 1 row)) as [b |]; [| discriminate].
      rewrite Hd in Er. change (String.eqb "drop" "drop") with true in Er.
      inversion Er. destruct (known m a b); reflexivity. }
    subst rr. cbn [concat List.filter]. rewrite (IH rss' eq_refl).
    destruct (warm m row); reflexivity.
Qed.

Lemma col_indices_length names sch ixs :
  col_indices names sch = Some ixs -> length ixs = length names.
Proof.
  revert ixs. induction names as [| n names IH]; intros ixs H.
  - inversion H. reflexivity.
  - cbn [col_indices] in H. destruct (col_index n sch); [| discriminate].
    destruct (col_indices names sch) as [js |]; [| discriminate].
    inversion H; subst. cbn [length]. f_equal. apply IH. reflexivity.
Qed.

Lemma select_width names df r row :
  select names df = Some r -> In row r.(rows) -> length row = length names.
Proof.
  unfold select. destruct (col_indices names (schema df)) as [ixs |] eqn:E; [| discriminate].
  intros H Hin. inversion H; subst r; clear H. cbn [rows] in Hin.
  apply in_map_iff in Hin. destruct Hin as (r0 & <- & _).
  rewrite length_map. apply (col_indices_length _ _ _ E).
Qed.

Lemma transform_drop m t p :
  m.(m_params) = the_als ->
  map fst t.(schema) = ["user_id"; "movie_id"; "rating"] ->
  transform m t = Some p ->
  p = {| schema := t.(schema) ++ [("prediction", FloatType)];
         rows := map (with_prediction m) (List.filter (warm m) t.(rows)) |}.
Proof.
  intros Hp Hn. unfold transform. rewrite Hp. cbn [the_als userCol itemCol predictionCol].
  rewrite !(col_index_names _ _ three_columns Hn).
  change (col_index "user_id" three_columns) with (Some 0%nat).
  change (col_index "movie_id" three_columns) with (Some 1%nat).
  cbn beta iota.
  destruct (mapM (predict_row m 0 1) (rows t)) as [rss |] eqn:E; [| discriminate].
  intros H. inversion H. f_equal. apply predict_rows_drop; [| exact E].
  rewrite Hp. reflexivity.
Qed.

Lemma warm_ids m r :
  warm m r = true ->
  exists u i, as_int (cell 0 r) = Some u /\ as_int (cell 1 r) = Some i
              /\ In u m.(userIds) /\ In i m.(itemIds)
              /\ with_prediction m r = r ++ [VFloat (m.(score) u i)].
Proof.
  unfold warm, with_prediction, known.
  destruct (as_int (cell 0 r)) as [u |]; [| discriminate].
  destruct (as_int (cell 1 r)) as [i |]; [| discriminate].
  intros H. apply andb_true_iff in H. destruct H as [Hu Hi].
  apply bool_decide_eq_true in Hu, Hi. apply list_elem_of_In in Hu, Hi.
  exists u, i. conjs; try reflexivity; assumption.
Qed.

Lemma ids_warm m r u i :
  as_int (cell 0 r) = Some u -> as_int (cell 1 r) = Some i ->
  In u m.(userIds) -> In i m.(itemIds) -> warm m r = true.
Proof.
  intros Hu Hi Hin1 Hin2. unfold warm, known. rewrite Hu, Hi.
  apply andb_true_iff. split; apply bool_decide_eq_true, list_elem_of_In; assumption.
Qed.

Lemma label_pred_some l p rs lps :
  label_pred l p rs = Some (Some lps) ->
  Forall2 (fun row lp => as_num (cell l row) = Some (Fin (fst lp))
                         /\ as_num (cell p row) = Some (Fin (snd lp))) rs lps.
Proof.
  revert lps. induction rs as [| r rs IH]; intros lps H; cbn [label_pred] in H.
  - inversion H. constructor.
  - destruct (as_num (cell l r)) as [[| x] |] eqn:El;
      destruct (as_num (cell p r)) as [[| y] |] eqn:Ep;
      destruct (label_pred l p rs) as [[lps' |] |]; try discriminate.
    inversion H; subst lps. constructor; [split; assumption | apply IH; reflexivity].
Qed.

Lemma label_pred_nan l p rs :
  label_pred l p rs = Some None ->
  exists row, In row rs /\ (as_num (cell l row) = Some NaN \/ as_num (cell p row) = Some NaN).
Proof.
  induction rs as [| r rs IH]; intros H; cbn [label_pred] in H; [discriminate |].
  destruct (as_num (cell l r)) as [[| x] |] eqn:El;
    destruct (as_num (cell p r)) as [[| y] |] eqn:Ep;
    destruct (label_pred l p rs) as [[lps' |] |]; try discriminate;
    try (exists r; split; [left; reflexivity | tauto]).
  destruct (IH eq_refl) as (row & Hin & Hrow). exists row. split; [right; exact Hin | exact Hrow].
Qed.

Lemma returned_test_rows st rnd flt g w' :
  run solve uniform st rnd flt = (Returned g, w') ->
  map fst g.(g_test).(schema) = ["user_id"; "movie_id"; "rating"]
  /\ map fst g.(g_training).(schema) = ["user_id"; "movie_id"; "rating"]
  /\ (forall r, In r g.(g_test).(rows) -> In r g.(g_ratings).(rows))
  /\ (forall r, In r g.(g_training).(rows) -> In r g.(g_ratings).(rows))
  /\ (forall r, In r g.(g_ratings).(rows) -> exists a b c, r = [a; b; c]).
Proof.
  intros H. destruct (returned_tables _ _ _ _ _ H) as (Hn & Htr & Hte).
  apply run_returned in H. destruct H.
  rewrite Htr, Hte. cbn [schema rows]. conjs; try exact Hn.
  - intros r. apply sample_sub.
  - intros r. apply sample_sub.
  - intros r Hr. pose proof (select_width _ _ _ _ ok_ratings0 Hr) as Hw.
    destruct r as [| a [| b [| c [| d r]]]]; try discriminate Hw.
    exists a, b, c. reflexivity.
Qed.

Lemma Forall2_map_when {A B C : Type} (Q : A -> Prop) (P : B -> C -> Prop)
    (R : A -> C -> Prop) (f : A -> B) l k :
  Forall Q l -> (forall x y, Q x -> P (f x) y -> R x y) ->
  Forall2 P (map f l) k -> Forall2 R l k.
Proof.
  intros HQ Himp. revert k. induction HQ as [| x l Hx _ IH]; intros k H; cbn [map] in H.
  - inversion H. constructor.
  - inversion H as [| ? y ? k' Hxy Hrest]; subst. constructor.
    + apply Himp; assumption.
    + apply IH. exact Hrest.
Qed.

(** The predictions of a run that returns: the surviving test rows, each
    with its score. *)
Lemma returned_predictions st rnd flt g w' :
  run solve uniform st rnd flt = (Returned g, w') ->
  g.(g_predictions)
  = {| schema := g.(g_test).(schema) ++ [("prediction", FloatType)];
       rows := map (with_prediction g.(g_model))
                   (List.filter (warm g.(g_model)) g.(g_test).(rows)) |}
  /\ forall row, In row g.(g_predictions).(rows) ->
       exists r u i, In r g.(g_test).(rows) /\ warm g.(g_model) r = true
                     /\ as_int (cell 0 r) = Some u /\ as_int (cell 1 r) = Some i
                     /\ row = r ++ [VFloat (g.(g_model).(score) u i)].
Proof.
  intros H.
  pose proof (returned_params _ _ _ _ _ H) as Hp.
  destruct (returned_test_rows _ _ _ _ _ H) as (Hnte & _ & _ & _ & _).
  apply run_returned in H. destruct H.
  pose proof (transform_drop _ _ _ Hp Hnte ok_predictions0) as Hpred.
  split; [exact Hpred |].
  intros row Hrow. rewrite Hpred in Hrow. cbn [rows] in Hrow.
  apply in_map_iff in Hrow. destruct Hrow as (r & <- & Hr).
  apply filter_In in Hr. destruct Hr as [Hr Hwarm].
  destruct (warm_ids _ _ Hwarm) as (u & i & Hu & Hi & _ & _ & Hwp).
  exists r, u, i. conjs; assumption.
Qed.

(** C5, as amended.  The error is computed over the test rows that survive
    the cold-start policy only: a test row whose user or whose item never
    occurs in the training table is left out, neither zero-filled nor
    not-a-number, and every other test row is scored, also when its very
    pair is not in the training table.  The predictions are the surviving
    rows, each with the score of the model for its user and item.  The
    evaluator returns one number over them: the root of the sum of the
    squared differences between rating and score divided by the number of
    surviving rows, or not-a-number only when a surviving row carries a
    not-a-number rating. *)
Theorem C5_rmse_over_surviving_rows st rnd flt g w' :
  run solve uniform st rnd flt = (Returned g, w') ->
  g.(g_predictions)
  = {| schema := g.(g_test).(schema) ++ [("prediction", FloatType)];
       rows := map (with_prediction g.(g_model))
                   (List.filter (warm g.(g_model)) g.(g_test).(rows)) |}
  /\ (forall row, In row g.(g_test).(rows) ->
        (warm g.(g_model) row = true
         <-> exists u i,
               as_int (cell 0 row) = Some u /\ as_int (cell 1 row) = Some i
               /\ (exists r, In r g.(g_training).(rows) /\ as_int (cell 0 r) = Some u)
               /\ (exists r, In r g.(g_training).(rows) /\ as_int (cell 1 r) = Some i)))
  /\ (forall row v, In row g.(g_test).(rows) -> warm g.(g_model) row = false ->
                    ~ In (row ++ [v]) g.(g_predictions).(rows))
  /\ (forall row, In row g.(g_test).(rows) -> warm g.(g_model) row = true ->
        exists u i, as_int (cell 0 row) = Some u /\ as_int (cell 1 row) = Some i
                    /\ In (row ++ [VFloat (g.(g_model).(score) u i)])
                          g.(g_predictions).(rows))
  /\ (forall row, In row g.(g_predictions).(rows) ->
        exists r u i, In r g.(g_test).(rows) /\ warm g.(g_model) r = true
                      /\ as_int (cell 0 r) = Some u /\ as_int (cell 1 r) = Some i
                      /\ row = r ++ [VFloat (g.(g_model).(score) u i)])
  /\ evaluate the_evaluator g.(g_predictions) = Some g.(g_rmse)
  /\ ((exists lps,
         g.(g_rmse)
         = DSqrt (foldr Qplus 0%Q
                        (map (fun lp => ((snd lp - fst lp) * (snd lp - fst lp))%Q) lps)
                  / inject_Z (Z.of_nat (length lps)))%Q
         /\ Forall2 (fun r lp =>
                       as_num (cell 2 r) = Some (Fin (fst lp))
                       /\ exists u i, as_int (cell 0 r) = Some u
                                      /\ as_int (cell 1 r) = Some i
                                      /\ snd lp = g.(g_model).(score) u i)
                    (List.filter (warm g.(g_model)) g.(g_test).(rows)) lps)
      \/ (g.(g_rmse) = DNaN
          /\ exists r, In r g.(g_test).(rows) /\ warm g.(g_model) r = true
                       /\ as_num (cell 2 r) = Some NaN)).
Proof.
  intros H.
  destruct (returned_predictions _ _ _ _ _ H) as [Hpred Hrows].
  destruct (returned_test_rows _ _ _ _ _ H) as (Hnte & Hntr & Hte & Htr & Hw).
  apply run_returned in H. destruct H.
  destruct (fit_ids _ _ Hntr ok_model0) as [Hus His].
  conjs.
  - exact Hpred.
  - intros row _. split.
    + intros Hwarm. destruct (warm_ids _ _ Hwarm) as (u & i & Hu & Hi & Hin1 & Hin2 & _).
      exists u, i. conjs; try assumption; [apply Hus | apply His]; assumption.
    + intros (u & i & Hu & Hi & Hin1 & Hin2).
      apply (ids_warm _ _ u i); try assumption; [apply Hus | apply His]; assumption.
  - intros row v _ Hcold Hin.
    destruct (Hrows _ Hin) as (r & u & i & _ & Hwarm & _ & _ & Heq).
    apply app_inj_tail in Heq. destruct Heq as [-> _]. congruence.
  - intros row Hrow Hwarm. destruct (warm_ids _ _ Hwarm) as (u & i & Hu & Hi & _ & _ & Hwp).
    exists u, i. conjs; try assumption. rewrite Hpred. cbn [rows]. rewrite <- Hwp.
    apply in_map. apply filter_In. split; assumption.
  - exact Hrows.
  - exact ok_rmse0.
  - unfold evaluate in ok_rmse0. cbn [the_evaluator labelCol ev_predictionCol metricName] in ok_rmse0.
    assert (Hn4 : map fst g.(g_predictions).(schema) = map fst four_columns).
    { rewrite Hpred. cbn [schema]. rewrite map_app, Hnte. reflexivity. }
    rewrite !(col_index_names _ _ four_columns Hn4) in ok_rmse0.
    change (col_index "rating" four_columns) with (Some 2%nat) in ok_rmse0.
    change (col_index "prediction" four_columns) with (Some 3%nat) in ok_rmse0.
    cbn beta iota in ok_rmse0.
    destruct (rows (g_predictions g)) as [| r0 rs0] eqn:Er; [discriminate |].
    rewrite <- Er in *.
    destruct (label_pred 2 3 (rows (g_predictions g))) as [[lps |] |] eqn:El;
      [| | discriminate].
    + left. exists lps. split.
      * change (String.eqb "rmse" "rmse") with true in ok_rmse0. cbn iota in ok_rmse0.
        inversion ok_rmse0. unfold mean_sq_err, sq_err. reflexivity.
      * apply label_pred_some in El. rewrite Hpred in El. cbn [rows] in El.
        assert (HQ : Forall (fun r => In r g.(g_test).(rows) /\ warm g.(g_model) r = true)
                            (List.filter (warm g.(g_model)) g.(g_test).(rows))).
        { apply List.Forall_forall. intros r Hr. apply filter_In in Hr. exact Hr. }
        eapply (Forall2_map_when _ _ _ (with_prediction g.(g_model))); [exact HQ | | exact El].
        intros r lp [Hr Hwarm] [Hl Hp].
        destruct (warm_ids _ _ Hwarm) as (u & i & Hu & Hi & _ & _ & Hwp).
        rewrite Hwp in Hl, Hp.
        destruct (Hw r (Hte r Hr)) as (a & b & c & ->).
        cbn in Hl, Hp. split; [exact Hl |].
        exists u, i. conjs; try assumption. inversion Hp. reflexivity.
    + right. split.
      * change (String.eqb "rmse" "rmse") with true in ok_rmse0. cbn [orb] in ok_rmse0.
        inversion ok_rmse0. reflexivity.
      * apply label_pred_nan in El. destruct El as (row & Hin & Hnan).
        destruct (Hrows _ Hin) as (r & u & i & Hr & Hwarm & _ & _ & ->).
        exists r. conjs; try assumption.
        destruct (Hw r (Hte r Hr)) as (a & b & c & ->).
        cbn in Hnan. destruct Hnan as [Hnan | Hnan]; [exact Hnan | discriminate Hnan].
Qed.



(** C6. The Splitter makes exactly two tables of the loaded ratings, with
    weights [0.8, 0.2] and no seed: the seed is drawn from the host's
    random numbers when the run comes to the split; the training table is
    made of the rows whose draw falls below 0.8, the test table of the
    others.  Two runs on the same store load the same ratings and need not
    split them alike: when the rows are pairwise distinct and the draws of
    the two seeds put one row on different sides, the training tables
    differ. *)
Theorem C6_split_without_seed st flt rnd1 rnd2 g1 w1 g2 w2 :
  run solve uniform st rnd1 flt = (Returned g1, w1) ->
  run solve uniform st rnd2 flt = (Returned g2, w2) ->
  w1.(trace) !! 5%nat = Some (EvRandomSplit [(8 # 10)%Q; (2 # 10)%Q] None)
  /\ w1.(draws) = 1%nat
  /\ split_rows uniform [(8 # 10)%Q; (2 # 10)%Q] (rnd1 0%nat mod 2 ^ 63) g1.(g_ratings)
     = Some [g1.(g_training); g1.(g_test)]
  /\ g1.(g_training).(rows)
     = sample uniform (rnd1 0%nat mod 2 ^ 63) 0 (800 # 1000) 0 g1.(g_ratings).(rows)
  /\ g1.(g_test).(rows)
     = sample uniform (rnd1 0%nat mod 2 ^ 63) (800 # 1000) (1000000 # 1000000) 0
              g1.(g_ratings).(rows)
  /\ g1.(g_ratings) = g2.(g_ratings)
  /\ (forall i r,
        NoDup g1.(g_ratings).(rows) ->
        g1.(g_ratings).(rows) !! i = Some r ->
        hit uniform (rnd1 0%nat mod 2 ^ 63) 0 (800 # 1000) i = true ->
        hit uniform (rnd2 0%nat mod 2 ^ 63) 0 (800 # 1000) i = false ->
        g1.(g_training) <> g2.(g_training)).
Proof.
  intros H1 H2.
  destruct (returned_tables _ _ _ _ _ H1) as (_ & Htr1 & Hte1).
  destruct (returned_tables _ _ _ _ _ H2) as (_ & Htr2 & _).
  apply run_returned in H1, H2. destruct H1, H2.
  assert (Hsame : g1.(g_ratings) = g2.(g_ratings)) by congruence.
  conjs.
  - rewrite ok_world0. reflexivity.
  - rewrite ok_world0. reflexivity.
  - assumption.
  - rewrite Htr1. reflexivity.
  - rewrite Hte1. reflexivity.
  - exact Hsame.
  - intros i r Hnd Hi Hh1 Hh2 Heq.
    assert (Hin : In r g1.(g_training).(rows)).
    { rewrite Htr1. cbn [rows]. apply sample_In. exists i. split; assumption. }
    rewrite Heq, Htr2 in Hin. cbn [rows] in Hin. rewrite <- Hsame in Hin.
    apply sample_In in Hin. destruct Hin as (j & Hj & Hhj). cbn [Nat.add] in Hhj.
    assert (j = i) by (apply (NoDup_lookup _ _ _ _ Hnd Hj Hi)). subst j. congruence.
Qed.

(** ** What a run leaves of the store and of the output *)

Lemma key_in_out : key_in <> key_out.
Proof.
  intros H. apply String.eqb_eq in H. vm_compute in H. discriminate H.
Qed.

Lemma prefix_unsaved n g :
  (n < 15)%nat -> existsb is_save (firstn n (full_trace g)) = false.
Proof.
  intros Hn. do 15 (destruct n as [| n]; [reflexivity |]). exfalso. lia.
Qed.

Lemma prefix_length n g : (n < 29)%nat -> length (firstn n (full_trace g)) = n.
Proof. intros Hn. rewrite length_take. cbn [full_trace length]. lia. Qed.

(** X1. Whatever the outcome of a run, the collection of the ratings is
    left as it was, and so is every collection other than
    [user_recommendations]; a run that stopped before it came to the write,
    that is in one of its first fourteen calls, left the whole store as
    it was. *)
Theorem X1_store_frame st rnd flt :
  (snd (run solve uniform st rnd flt)).(store) !! key_in = st !! key_in
  /\ (forall k, k <> key_out ->
                (snd (run solve uniform st rnd flt)).(store) !! k = st !! k)
  /\ ((length (snd (run solve uniform st rnd flt)).(trace) < 14)%nat ->
      (snd (run solve uniform st rnd flt)).(store) = st).
Proof.
  assert (Hk : forall (df : DataFrame) k, k <> key_out ->
                 <[key_out := df]> (delete key_out st) !! k = st !! k).
  { intros df k Hne. rewrite lookup_insert_ne by congruence.
    apply lookup_delete_ne. congruence. }
  destruct (run solve uniform st rnd flt) as [[g | e] w'] eqn:E; cbn [snd].
  - apply run_returned in E. destruct E. rewrite ok_world0. cbn [store trace].
    conjs.
    + apply Hk. exact key_in_out.
    + intros k Hne. apply Hk. exact Hne.
    + cbn [full_trace length]. lia.
  - apply run_raised in E. destruct E as (n & g & Hn & [Ht Hs Ho Hse] & _).
    rewrite Ht, Hs, (prefix_length n g Hn). unfold store_after.
    destruct (existsb is_save (firstn n (full_trace g))) eqn:Es.
    + conjs.
      * apply Hk. exact key_in_out.
      * intros k Hne. apply Hk. exact Hne.
      * intros H14. rewrite (prefix_unsaved n g) in Es by lia. discriminate Es.
    + conjs; reflexivity.
Qed.

(** X2. Running the script again on the store a first run left: the second
    run loads the ratings the first one loaded, and the store it leaves is
    the one it would have left without the first run; the collection holds
    one copy, the table of the second run. *)
Theorem X2_second_run_replaces_first st rnd1 flt1 g1 w1 rnd2 flt2 g2 w2 :
  run solve uniform st rnd1 flt1 = (Returned g1, w1) ->
  run solve uniform w1.(store) rnd2 flt2 = (Returned g2, w2) ->
  g2.(g_ratings) = g1.(g_ratings)
  /\ w2.(store) = <[key_out := g2.(g_userRecs)]> (delete key_out st)
  /\ w2.(store) !! key_out = Some g2.(g_userRecs).
Proof.
  intros H1 H2. apply run_returned in H1, H2. destruct H1, H2.
  assert (Hst : store w1 = <[key_out := g_userRecs g1]> (delete key_out st)).
  { rewrite ok_world0. reflexivity. }
  assert (Hload : load_collection (store w1) key_in = load_collection st key_in).
  { unfold load_collection. rewrite Hst.
    rewrite lookup_insert_ne by (apply not_eq_sym, key_in_out).
    rewrite lookup_delete_ne by (apply not_eq_sym, key_in_out). reflexivity. }
  assert (Hst2 : store w2 = <[key_out := g_userRecs g2]> (delete key_out st)).
  { rewrite ok_world1. cbn [store]. rewrite Hst.
    rewrite delete_insert_eq, delete_delete_eq. reflexivity. }
  conjs.
  - rewrite Hload in ok_ratings1. congruence.
  - exact Hst2.
  - rewrite Hst2. apply lookup_insert_eq.
Qed.

(** X3. The output of a run.  A run that returns has printed, in this
    order, the line of the error with the value the evaluator gave, then
    the previews of the four tables (all users as written, all items,
    user subset, item subset), each of at most twenty rows.  A run that
    raised has printed the beginning of that output which its completed
    calls make: one item for each print or show among them, with the
    values this run computed up to there.  So it has printed nothing when
    it stopped before its twelfth call, and from then on its output starts
    with the line of the error, carrying the value the evaluator gave
    for the predictions of this run. *)
Theorem X3_standard_output st rnd flt :
  match run solve uniform st rnd flt with
  | (Returned g, w') =>
      w'.(stdout)
      = [ Line "Root-mean-square error = " g.(g_rmse);
          Table (limit 20 g.(g_userRecs)); Table (limit 20 g.(g_movieRecs));
          Table (limit 20 g.(g_userSubsetRecs));
          Table (limit 20 g.(g_movieSubSetRecs)) ]
      /\ evaluate the_evaluator g.(g_predictions) = Some g.(g_rmse)
      /\ Forall (fun o => match o with
                          | Table t => (length t.(rows) <= 20)%nat
                          | Line _ _ => True
                          end) w'.(stdout)
  | (Raised e, w') =>
      exists g,
        Reached solve uniform key_in st rnd (length w'.(trace)) g
        /\ w'.(trace) = firstn (length w'.(trace)) (full_trace g)
        /\ w'.(stdout) = stdout_after w'.(trace) g
        /\ ((length w'.(trace) < 12)%nat -> w'.(stdout) = [])
        /\ ((12 <= length w'.(trace))%nat ->
            transform g.(g_model) g.(g_test) = Some g.(g_predictions)
            /\ evaluate the_evaluator g.(g_predictions) = Some g.(g_rmse)
            /\ exists rest,
                 w'.(stdout) = Line "Root-mean-square error = " g.(g_rmse) :: rest
                 /\ Forall (fun o => match o with
                                     | Table _ => True
                                     | Line _ _ => False
                                     end) rest)
  end.
Proof.
  destruct (run solve uniform st rnd flt) as [[g | e] w'] eqn:E.
  - apply run_returned in E. destruct E. rewrite ok_world0. cbn [stdout].
    conjs; [reflexivity | assumption |].
    unfold full_stdout. constructor; [exact I |].
    repeat (constructor; [cbn [limit rows]; rewrite length_take; lia |]).
    constructor.
  - apply run_raised_reached in E. destruct E as (n & g & Hn & [Ht Hs Ho Hse] & Hr).
    exists g. rewrite Ho, Ht, (prefix_length n g Hn). conjs.
    + exact Hr.
    + reflexivity.
    + reflexivity.
    + intros H12. unfold stdout_after.
      do 12 (destruct n as [| n]; [reflexivity |]). lia.
    + intros H12.
      pose proof (at_predictions _ _ _ _ _ _ _ Hr ltac:(lia)) as Hp.
      pose proof (at_rmse _ _ _ _ _ _ _ Hr ltac:(lia)) as Hv.
      conjs; [exact Hp | exact Hv |].
      clear Ht Hs Ho Hse Hr Hp Hv. unfold stdout_after.
      do 12 (destruct n as [| n]; [lia |]).
      do 17 (destruct n as [| n];
             [eexists; split; [reflexivity | repeat constructor] |]).
      lia.
Qed.

(** ** Tables a run cannot do without *)

Lemma sample_disjoint_length seed a b c k rs :
  (length (sample uniform seed a b k rs) + length (sample uniform seed b c k rs)
   <= length rs)%nat.
Proof.
  revert k. induction rs as [| r rs IH]; intros k; cbn [sample]; [cbn; lia |].
  rewrite !length_app. specialize (IH (S k)). unfold hit.
  destruct (Qle_bool a (uniform seed k)), (Qle_bool b (uniform seed k)),
    (Qle_bool c (uniform seed k)); cbn [andb negb length]; lia.
Qed.

Lemma evaluate_nonempty ev df v : evaluate ev df = Some v -> df.(rows) <> [].
Proof.
  unfold evaluate.
  destruct (col_index (labelCol ev) (schema df)); [| discriminate].
  destruct (col_index (ev_predictionCol ev) (schema df)); [| discriminate].
  destruct (rows df); [discriminate | intros _; discriminate].
Qed.

Lemma fit_nonempty p t m : fit solve p t = Some m -> t.(rows) <> [].
Proof.
  unfold fit, ratings_of.
  destruct (col_index (userCol p) (schema t)); [| discriminate].
  destruct (col_index (itemCol p) (schema t)); [| discriminate].
  destruct (col_index (ratingCol p) (schema t)); [| discriminate].
  destruct (rows t) as [| r rs]; [discriminate | intros _; discriminate].
Qed.

(** X4. The script guards nothing, so a run returns only on ratings it can
    both train on and test on: the training table has a row, a test row
    survives the cold-start policy, no row is in both tables, and the
    loaded ratings have two rows at least. *)
Theorem X4_returns_need_training_and_test_rows st rnd flt g w' :
  run solve uniform st rnd flt = (Returned g, w') ->
  g.(g_training).(rows) <> []
  /\ (exists row, In row g.(g_test).(rows) /\ warm g.(g_model) row = true)
  /\ (length g.(g_training).(rows) + length g.(g_test).(rows)
      <= length g.(g_ratings).(rows))%nat
  /\ (2 <= length g.(g_ratings).(rows))%nat.
Proof.
  intros H.
  pose proof (returned_params _ _ _ _ _ H) as Hp.
  destruct (returned_tables _ _ _ _ _ H) as (Hn & Htr & Hte).
  destruct (returned_test_rows _ _ _ _ _ H) as (Hnte & _ & _ & _ & _).
  apply run_returned in H. destruct H.
  pose proof (fit_nonempty _ _ _ ok_model0) as Hne.
  pose proof (evaluate_nonempty _ _ _ ok_rmse0) as Hpe.
  rewrite (transform_drop _ _ _ Hp Hnte ok_predictions0) in Hpe. cbn [rows] in Hpe.
  assert (Hwarm : exists row, In row g.(g_test).(rows) /\ warm g.(g_model) row = true).
  { destruct (List.filter (warm (g_model g)) (rows (g_test g))) as [| row l] eqn:Ef;
      [destruct (Hpe eq_refl) |].
    assert (Hin : In row (List.filter (warm (g_model g)) (rows (g_test g)))).
    { rewrite Ef. left. reflexivity. }
    apply filter_In in Hin. exists row. exact Hin. }
  assert (Hsum : (length g.(g_training).(rows) + length g.(g_test).(rows)
                  <= length g.(g_ratings).(rows))%nat).
  { rewrite Htr, Hte. cbn [rows]. apply sample_disjoint_length. }
  conjs; try assumption.
  destruct Hwarm as (row & Hrow & _).
  destruct (rows (g_training g)); [congruence |].
  destruct (rows (g_test g)); [destruct Hrow |]. cbn [length] in Hsum. lia.
Qed.

(** ** The four recommendation tables *)

Lemma fit_NoDup p t m :
  fit solve p t = Some m -> NoDup m.(userIds) /\ NoDup m.(itemIds).
Proof.
  unfold fit. destruct (ratings_of p t) as [[| r rs] |]; try discriminate.
  intros H. injection H as <-. cbn [userIds itemIds].
  split;
    [apply (NoDup_remove_dups (map r_user (r :: rs)))
    | apply (NoDup_remove_dups (map r_item (r :: rs)))].
Qed.

Lemma top_NoDup k objs f : NoDup objs -> NoDup (map fst (top k objs f)).
Proof.
  intros Hnd. unfold top. rewrite <- firstn_map.
  apply (sublist_NoDup _ (map fst (merge_sort by_score_desc (map (fun i => (i, f i)) objs))));
    [| apply sublist_take].
  assert (Hp : map fst (merge_sort by_score_desc (map (fun i => (i, f i)) objs)) ≡ₚ objs).
  { rewrite (Permutation_map fst (merge_sort_Permutation _ _)).
    rewrite map_map. cbn [fst]. rewrite map_id. reflexivity. }
  rewrite Hp. exact Hnd.
Qed.

(** The lists of the four tables of a run that returns. *)
Lemma returned_lists st rnd flt g w' :
  run solve uniform st rnd flt = (Returned g, w') ->
  (forall t row,
      t = g.(g_userRecs) \/ t = g.(g_userSubsetRecs) -> In row t.(rows) ->
      exists u, In u g.(g_model).(userIds)
                /\ rec_list row
                   = Some (u, top 10 g.(g_model).(itemIds) (g.(g_model).(score) u)))
  /\ (forall t row,
         t = g.(g_movieRecs) \/ t = g.(g_movieSubSetRecs) -> In row t.(rows) ->
         exists i, In i g.(g_model).(itemIds)
                   /\ rec_list row
                      = Some (i, top 10 g.(g_model).(userIds)
                                     (fun u => g.(g_model).(score) u i))).
Proof.
  intros H.
  pose proof (returned_userRecs _ _ _ _ _ H) as Hrecs.
  apply run_returned in H. destruct H.
  split.
  - intros t row [-> | ->] Hrow.
    + rewrite Hrecs in Hrow. cbn [rows] in Hrow. apply user_rows_double_In. exact Hrow.
    + unfold recommendForUserSubset in ok_userSubsetRecs0.
      destruct (subset_ids _ (g_users g)) as [ids |]; [| discriminate].
      inversion ok_userSubsetRecs0 as [Heq]. rewrite <- Heq in Hrow. cbn [rows] in Hrow.
      apply user_rows_In in Hrow. destruct Hrow as (u & Hu & Hl).
      exists u. split; [| exact Hl].
      apply list_elem_of_In in Hu. apply list_elem_of_filter in Hu.
      apply list_elem_of_In. apply Hu.
  - intros t row [-> | ->] Hrow.
    + rewrite ok_movieRecs0 in Hrow. cbn [recommendForAllItems rows] in Hrow.
      apply item_rows_In. exact Hrow.
    + unfold recommendForItemSubset in ok_movieSubSetRecs0.
      destruct (subset_ids _ (g_movies g)) as [ids |]; [| discriminate].
      inversion ok_movieSubSetRecs0 as [Heq]. rewrite <- Heq in Hrow. cbn [rows] in Hrow.
      apply item_rows_In in Hrow. destruct Hrow as (i & Hi & Hl).
      exists i. split; [| exact Hl].
      apply list_elem_of_In in Hi. apply list_elem_of_filter in Hi.
      apply list_elem_of_In. apply Hi.
Qed.

(** X5. In each of the four recommendation tables, all users, all items,
    user subset and item subset, every list has at most 10 entries, is
    sorted by descending score, names no object twice, and gives for each
    object the score of the model for the pair. *)
Theorem X5_every_list_top10_sorted_distinct st rnd flt g w' :
  run solve uniform st rnd flt = (Returned g, w') ->
  (forall t row,
      t = g.(g_userRecs) \/ t = g.(g_userSubsetRecs) -> In row t.(rows) ->
      exists u l, rec_list row = Some (u, l)
                  /\ (length l <= 10)%nat
                  /\ StronglySorted by_score_desc l
                  /\ NoDup (map fst l)
                  /\ forall i x, In (i, x) l -> x = g.(g_model).(score) u i)
  /\ (forall t row,
         t = g.(g_movieRecs) \/ t = g.(g_movieSubSetRecs) -> In row t.(rows) ->
         exists i l, rec_list row = Some (i, l)
                     /\ (length l <= 10)%nat
                     /\ StronglySorted by_score_desc l
                     /\ NoDup (map fst l)
                     /\ forall u x, In (u, x) l -> x = g.(g_model).(score) u i).
Proof.
  intros H. destruct (returned_lists _ _ _ _ _ H) as [Hu Hi].
  apply run_returned in H. destruct H.
  destruct (fit_NoDup _ _ _ ok_model0) as [Hndu Hndi].
  split.
  - intros t row Ht Hrow. destruct (Hu t row Ht Hrow) as (u & _ & Hl).
    exists u, (top 10 (itemIds (g_model g)) (score (g_model g) u)).
    conjs; [exact Hl | apply top_length | apply top_sorted | apply top_NoDup, Hndi |].
    intros i x Hin. apply top_In in Hin. apply Hin.
  - intros t row Ht Hrow. destruct (Hi t row Ht Hrow) as (i & _ & Hl).
    exists i, (top 10 (userIds (g_model g)) (fun u => score (g_model g) u i)).
    conjs; [exact Hl | apply top_length | apply top_sorted | apply top_NoDup, Hndu |].
    intros u x Hin. apply top_In in Hin. apply Hin.
Qed.

(** ** The subsets *)

Lemma filter_elem_length (ids l : list Z) :
  NoDup l -> (length (filter (fun u => u ∈ ids) l) <= length ids)%nat.
Proof.
  intros Hnd. apply submseteq_length. apply NoDup_submseteq.
  - apply NoDup_filter. exact Hnd.
  - intros x Hx. apply list_elem_of_filter in Hx. apply Hx.
Qed.

Lemma subset_ids_rows ds ids :
  map fst ds.(schema) = map fst [(fst (hd ("", IntegerType) ds.(schema)), IntegerType)] ->
  subset_ids (fst (hd ("", IntegerType) ds.(schema))) ds = Some ids ->
  length ids = length ds.(rows)
  /\ forall u, In u ids -> exists r, In r ds.(rows) /\ as_int (cell 0 r) = Some u.
Proof.
  intros Hn. unfold subset_ids. rewrite (col_index_names _ _ _ Hn).
  cbn [col_index]. rewrite String.eqb_refl. intros H. split.
  - symmetry. apply (length_mapM _ _ _ H).
  - intros u Hu. apply mapM_Some in H.
    destruct (Forall2_In_r _ _ _ _ H Hu) as (r & Hr & Hc). exists r. split; assumption.
Qed.

Lemma one_column name df s :
  select [name] df = Some s ->
  map fst (limit 3 (distinct s)).(schema)
  = map fst [(fst (hd ("", IntegerType) (limit 3 (distinct s)).(schema)), IntegerType)]
  /\ fst (hd ("", IntegerType) (limit 3 (distinct s)).(schema)) = name.
Proof.
  intros H. apply select_names in H. cbn [limit distinct schema].
  destruct (schema s) as [| [n t] [| c sch]]; try discriminate H.
  cbn in H. inversion H. split; reflexivity.
Qed.

(** X6. The two subset calls are made for at most three subjects, the first
    three distinct ids of the ratings: each subset table has at most three
    rows, and each of its subjects is one of the ids chosen and has factors
    in the model; a chosen id without factors gets no row. *)
Theorem X6_subset_tables_at_most_three st rnd flt g w' :
  run solve uniform st rnd flt = (Returned g, w') ->
  (length g.(g_users).(rows) <= 3)%nat
  /\ (length g.(g_movies).(rows) <= 3)%nat
  /\ (length g.(g_userSubsetRecs).(rows) <= 3)%nat
  /\ (length g.(g_movieSubSetRecs).(rows) <= 3)%nat
  /\ (forall row, In row g.(g_userSubsetRecs).(rows) ->
        exists u l, rec_list row = Some (u, l) /\ In u g.(g_model).(userIds)
                    /\ exists r, In r g.(g_users).(rows) /\ as_int (cell 0 r) = Some u)
  /\ (forall row, In row g.(g_movieSubSetRecs).(rows) ->
        exists i l, rec_list row = Some (i, l) /\ In i g.(g_model).(itemIds)
                    /\ exists r, In r g.(g_movies).(rows) /\ as_int (cell 0 r) = Some i).
Proof.
  intros H. pose proof (returned_params _ _ _ _ _ H) as Hp.
  apply run_returned in H. destruct H.
  destruct (fit_NoDup _ _ _ ok_model0) as [Hndu Hndi].
  destruct ok_users0 as (su & Hsu & Hus). destruct ok_movies0 as (sm & Hsm & Hms).
  destruct (one_column _ _ _ Hsu) as [Hnu Hcu]. destruct (one_column _ _ _ Hsm) as [Hnm Hcm].
  rewrite <- Hus in Hnu, Hcu. rewrite <- Hms in Hnm, Hcm.
  assert (Hlu : (length g.(g_users).(rows) <= 3)%nat).
  { rewrite Hus. cbn [limit rows]. rewrite length_take. lia. }
  assert (Hlm : (length g.(g_movies).(rows) <= 3)%nat).
  { rewrite Hms. cbn [limit rows]. rewrite length_take. lia. }
  unfold recommendForUserSubset in ok_userSubsetRecs0.
  unfold recommendForItemSubset in ok_movieSubSetRecs0.
  rewrite Hp in ok_userSubsetRecs0, ok_movieSubSetRecs0.
  cbn [the_als userCol itemCol] in ok_userSubsetRecs0, ok_movieSubSetRecs0.
  rewrite <- Hcu in ok_userSubsetRecs0 at 1. rewrite <- Hcm in ok_movieSubSetRecs0 at 1.
  destruct (subset_ids _ (g_users g)) as [uids |] eqn:Eu; [| discriminate].
  destruct (subset_ids _ (g_movies g)) as [mids |] eqn:Em; [| discriminate].
  destruct (subset_ids_rows _ _ Hnu Eu) as [Hlenu Hinu].
  destruct (subset_ids_rows _ _ Hnm Em) as [Hlenm Hinm].
  injection ok_userSubsetRecs0 as Hur. injection ok_movieSubSetRecs0 as Hmr.
  rewrite <- Hur, <- Hmr. cbn [rows]. conjs; try assumption.
  - unfold user_rows. rewrite length_map.
    pose proof (filter_elem_length uids _ Hndu). lia.
  - unfold item_rows. rewrite length_map.
    pose proof (filter_elem_length mids _ Hndi). lia.
  - intros row Hrow. apply user_rows_In in Hrow. destruct Hrow as (u & Hu & Hl).
    apply list_elem_of_In in Hu. apply list_elem_of_filter in Hu. destruct Hu as [Hsel Hin].
    exists u, (top 10 (itemIds (g_model g)) (score (g_model g) u)).
    conjs; [exact Hl | apply list_elem_of_In; exact Hin |].
    apply Hinu. apply list_elem_of_In. exact Hsel.
  - intros row Hrow. apply item_rows_In in Hrow. destruct Hrow as (i & Hi & Hl).
    apply list_elem_of_In in Hi. apply list_elem_of_filter in Hi. destruct Hi as [Hsel Hin].
    exists i, (top 10 (userIds (g_model g)) (fun u => score (g_model g) u i)).
    conjs; [exact Hl | apply list_elem_of_In; exact Hin |].
    apply Hinm. apply list_elem_of_In. exact Hsel.
Qed.

(** ** The table written *)

Lemma Forall2_map_same {A B C : Type} (P : B -> C -> Prop) (f : A -> B) (h : A -> C) l :
  (forall x, In x l -> P (f x) (h x)) -> Forall2 P (map f l) (map h l).
Proof.
  induction l as [| x l IH]; intros H; cbn [map]; constructor.
  - apply H. left. reflexivity.
  - apply IH. intros y Hy. apply H. right. exact Hy.
Qed.

(** X7. The table written has one row for each user of the training table
    and no other: its subjects, in order, are the users with factors, each
    once; a user whose ratings all went to the test table gets no row. *)
Theorem X7_one_row_per_trained_user st rnd flt g w' :
  run solve uniform st rnd flt = (Returned g, w') ->
  Forall2 (fun row u => exists l, rec_list row = Some (u, l))
          g.(g_userRecs).(rows) g.(g_model).(userIds)
  /\ NoDup g.(g_model).(userIds)
  /\ (forall u, In u g.(g_model).(userIds)
                <-> exists r, In r g.(g_training).(rows) /\ as_int (cell 0 r) = Some u)
  /\ w'.(store) !! key_out = Some g.(g_userRecs).
Proof.
  intros H. pose proof (returned_userRecs _ _ _ _ _ H) as Hrecs.
  destruct (returned_test_rows _ _ _ _ _ H) as (_ & Hntr & _ & _ & _).
  apply run_returned in H. destruct H.
  destruct (fit_NoDup _ _ _ ok_model0) as [Hndu _].
  destruct (fit_ids _ _ Hntr ok_model0) as [Hus _].
  conjs; try assumption.
  - rewrite Hrecs. cbn [rows]. unfold user_rows_double.
    rewrite <- (map_id (userIds (g_model g))) at 2.
    apply Forall2_map_same. intros u _. eexists. apply rec_list_double.
  - rewrite ok_world0. cbn [store]. apply lookup_insert_eq.
Qed.

(** X8. The cast changes the precision and nothing else: row by row, the
    table written reads as the table the Recommender gave, same subject,
    same movies in the same order, same numbers. *)
Theorem X8_cast_keeps_content st rnd flt g w' :
  run solve uniform st rnd flt = (Returned g, w') ->
  Forall2 (fun row row' => rec_list row' = rec_list row /\ rec_list row <> None)
          (recommendForAllUsers g.(g_model) 10).(rows) g.(g_userRecs).(rows).
Proof.
  intros H. rewrite (returned_userRecs _ _ _ _ _ H).
  cbn [recommendForAllUsers rows]. unfold user_rows, user_rows_double.
  apply Forall2_map_same. intros u _.
  rewrite rec_list_float, rec_list_double. split; [reflexivity | discriminate].
Qed.

(** ** A store without the ratings *)

Lemma bind_then {A B : Type} (c : Script A) (k : A -> Script B) w a w1 :
  c w = (Returned a, w1) -> bind c k w = k a w1.
Proof. intros H. unfold bind. rewrite H. reflexivity. Qed.

Lemma bind_stops {A B : Type} (c : Script A) (k : A -> Script B) w e w1 :
  c w = (Raised e, w1) -> bind c k w = (Raised e, w1).
Proof. intros H. unfold bind. rewrite H. reflexivity. Qed.

Lemma call_completes {A : Type} e (f : World -> option (A * World)) w a w0 :
  w.(faults) (length w.(trace)) = false -> f w = Some (a, w0) ->
  call e f w = (Returned a, log e w0).
Proof. intros Hf H. unfold call. rewrite Hf, H. reflexivity. Qed.

Lemma call_refuses {A : Type} e (f : World -> option (A * World)) w :
  w.(faults) (length w.(trace)) = false -> f w = None ->
  call e f w = (Raised (CallError e), w).
Proof. intros Hf H. unfold call. rewrite Hf, H. reflexivity. Qed.

Lemma load_completes w :
  w.(faults) (length w.(trace)) = false ->
  load "com.mongodb.spark.sql" uri w
  = (Returned (load_collection w.(store) key_in), log (EvLoad "com.mongodb.spark.sql" uri) w).
Proof.
  intros Hf. unfold load. apply call_completes; [exact Hf |].
  change (is_mongo "com.mongodb.spark.sql") with true. cbn iota.
  rewrite target_in. reflexivity.
Qed.

(** X9. When the ratings cannot be projected on the three columns, the
    collection being absent from the store or lacking one of the fields,
    the run raises at the selection, its fifth call: nothing is printed,
    nothing is written, and the session, created and never stopped, is
    left live. *)
Theorem X9_missing_fields_stop_at_select st rnd flt :
  select ["user_id"; "movie_id"; "rating"] (load_collection st key_in) = None ->
  (forall n, (n <= 4)%nat -> flt n = false) ->
  run solve uniform st rnd flt
  = (Raised (CallError (EvSelect ["user_id"; "movie_id"; "rating"])),
     {| store := st; stdout := [];
        session := Live "MovieRatings" [("spark.executor.memory", "4g")];
        levels := [("org", "WARN")]; entropy := rnd; draws := 0;
        trace := [ EvSparkContext "MovieRatings" [("spark.executor.memory", "4g")];
                   EvSetLevel "org" "WARN"; EvSQLContext;
                   EvLoad "com.mongodb.spark.sql" uri ];
        faults := flt |}).
Proof.
  intros Hsel Hf. unfold run, main.
  erewrite bind_then;
    [| unfold init_spark_context, SparkContext; apply call_completes;
       [apply (Hf 0%nat); lia | reflexivity]].
  erewrite bind_then;
    [| unfold setLevel; apply call_completes; [apply (Hf 1%nat); lia | reflexivity]].
  erewrite bind_then;
    [| unfold pure_call; apply call_completes; [apply (Hf 2%nat); lia | reflexivity]].
  erewrite bind_then; [| apply load_completes; apply (Hf 3%nat); lia].
  erewrite bind_stops;
    [| unfold pure_call; apply call_refuses;
       [apply (Hf 4%nat); lia
       | cbn [store log set_session set_levels boot]; rewrite Hsel; reflexivity]].
  reflexivity.
Qed.

End Facts.

(** * The sample run *)

Ltac sample_returns E :=
  exfalso; vm_compute in E; discriminate E.

(** The sample run returns, and its Writer does what C1 states: the old content of the collection is replaced by the cast table. *)
Lemma C1_writer_casts_then_overwrites_witness :
  exists g w',
    run sample_solve sample_uniform sample_store sample_rnd no_fault = (Returned g, w')
    /\ ((recommendForAllUsers g.(g_model) 10).(schema)
  = [("user_id", IntegerType);
     ("recommendations",
      ArrayType (StructType [("movie_id", IntegerType); ("rating", FloatType)]))]
  /\ withColumn_cast "recommendations" recs_type (recommendForAllUsers g.(g_model) 10)
     = Some g.(g_userRecs)
  /\ g.(g_userRecs).(schema)
     = [("user_id", IntegerType);
        ("recommendations",
         ArrayType (StructType [("movie_id", IntegerType); ("rating", DoubleType)]))]
  /\ g.(g_userRecs).(rows) = map widen_row (recommendForAllUsers g.(g_model) 10).(rows)
  /\ (exists pre post,
        w'.(trace)
        = pre ++ [EvRecommend AllUsers 10;
                  EvCast "recommendations" recs_type;
                  EvSave "com.mongodb.spark.sql.DefaultSource" uri
                         "user_recommendations" "overwrite" g.(g_userRecs)] ++ post)
  /\ save_mode "overwrite" = Some Overwrite
  /\ target uri (Some "user_recommendations") = Some key_out
  /\ w'.(store) !! key_out = Some g.(g_userRecs)
  /\ (forall k, k <> key_out -> w'.(store) !! k = sample_store !! k)).
Proof.
  destruct (run sample_solve sample_uniform sample_store sample_rnd no_fault)
    as [[g | e] w'] eqn:E.
  - exists g, w'. split; [reflexivity |].
    exact (C1_writer_casts_then_overwrites sample_solve sample_uniform sample_store sample_rnd no_fault g w' E).
  - sample_returns E.
Defined.

(** The sample run returns, and its Trainer is set as C2 states. *)
Lemma C2_trainer_hyperparameters_witness :
  exists g w',
    run sample_solve sample_uniform sample_store sample_rnd no_fault = (Returned g, w')
    /\ (g.(g_als) = {| maxIter := 5; regParam := 1 # 100;
                 userCol := "user_id"; itemCol := "movie_id"; ratingCol := "rating";
                 coldStartStrategy := "drop"; predictionCol := "prediction" |}
  /\ ALS 5 (1 # 100) "user_id" "movie_id" "rating" "drop" = Some g.(g_als)
  /\ fit sample_solve g.(g_als) g.(g_training) = Some g.(g_model)
  /\ g.(g_model).(m_params) = g.(g_als)
  /\ (exists test,
        split_rows sample_uniform [(8 # 10)%Q; (2 # 10)%Q] (sample_rnd 0%nat mod 2 ^ 63) g.(g_ratings)
        = Some [g.(g_training); test])
  /\ In (EvFit g.(g_als) g.(g_training)) w'.(trace)
  /\ (forall p t, In (EvFit p t) w'.(trace) -> p = g.(g_als) /\ t = g.(g_training))).
Proof.
  destruct (run sample_solve sample_uniform sample_store sample_rnd no_fault)
    as [[g | e] w'] eqn:E.
  - exists g, w'. split; [reflexivity |].
    exact (C2_trainer_hyperparameters sample_solve sample_uniform sample_store sample_rnd no_fault g w' E).
  - sample_returns E.
Defined.

(** The sample run returns, and its all-users lists are as C3 states. *)
Lemma C3_all_users_top10_descending_witness :
  exists g w',
    run sample_solve sample_uniform sample_store sample_rnd no_fault = (Returned g, w')
    /\ (forall t row,
    t = recommendForAllUsers g.(g_model) 10 \/ t = g.(g_userRecs) ->
    In row t.(rows) ->
    exists u l, rec_list row = Some (u, l)
                /\ (length l <= 10)%nat
                /\ StronglySorted by_score_desc l).
Proof.
  destruct (run sample_solve sample_uniform sample_store sample_rnd no_fault)
    as [[g | e] w'] eqn:E.
  - exists g, w'. split; [reflexivity |].
    exact (C3_all_users_top10_descending sample_solve sample_uniform sample_store sample_rnd no_fault g w' E).
  - sample_returns E.
Defined.


(** The sample run returns; one of its two test rows is a cold-start row, the other is scored, and the error is computed as the amended C5 states. *)
Lemma C5_rmse_over_surviving_rows_witness :
  exists g w',
    run sample_solve sample_uniform sample_store sample_rnd no_fault = (Returned g, w')
    /\ (g.(g_predictions)
  = {| schema := g.(g_test).(schema) ++ [("prediction", FloatType)];
       rows := map (with_prediction g.(g_model))
                   (List.filter (warm g.(g_model)) g.(g_test).(rows)) |}
  /\ (forall row, In row g.(g_test).(rows) ->
        (warm g.(g_model) row = true
         <-> exists u i,
               as_int (cell 0 row) = Some u /\ as_int (cell 1 row) = Some i
               /\ (exists r, In r g.(g_training).(rows) /\ as_int (cell 0 r) = Some u)
               /\ (exists r, In r g.(g_training).(rows) /\ as_int (cell 1 r) = Some i)))
  /\ (forall row v, In row g.(g_test).(rows) -> warm g.(g_model) row = false ->
                    ~ In (row ++ [v]) g.(g_predictions).(rows))
  /\ (forall row, In row g.(g_test).(rows) -> warm g.(g_model) row = true ->
        exists u i, as_int (cell 0 row) = Some u /\ as_int (cell 1 row) = Some i
                    /\ In (row ++ [VFloat (g.(g_model).(score) u i)])
                          g.(g_predictions).(rows))
  /\ (forall row, In row g.(g_predictions).(rows) ->
        exists r u i, In r g.(g_test).(rows) /\ warm g.(g_model) r = true
                      /\ as_int (cell 0 r) = Some u /\ as_int (cell 1 r) = Some i
                      /\ row = r ++ [VFloat (g.(g_model).(score) u i)])
  /\ evaluate the_evaluator g.(g_predictions) = Some g.(g_rmse)
  /\ ((exists lps,
         g.(g_rmse)
         = DSqrt (foldr Qplus 0%Q
                        (map (fun lp => ((snd lp - fst lp) * (snd lp - fst lp))%Q) lps)
                  / inject_Z (Z.of_nat (length lps)))%Q
         /\ Forall2 (fun r lp =>
                       as_num (cell 2 r) = Some (Fin (fst lp))
                       /\ exists u i, as_int (cell 0 r) = Some u
                                      /\ as_int (cell 1 r) = Some i
                                      /\ snd lp = g.(g_model).(score) u i)
                    (List.filter (warm g.(g_model)) g.(g_test).(rows)) lps)
      \/ (g.(g_rmse) = DNaN
          /\ exists r, In r g.(g_test).(rows) /\ warm g.(g_model) r = true
                       /\ as_num (cell 2 r) = Some NaN))).
Proof.
  destruct (run sample_solve sample_uniform sample_store sample_rnd no_fault)
    as [[g | e] w'] eqn:E.
  - exists g, w'. split; [reflexivity |].
    exact (C5_rmse_over_surviving_rows sample_solve sample_uniform sample_store sample_rnd no_fault g w' E).
  - sample_returns E.
Defined.

(** The sample run returns, and its Data Loader does what C7 states. *)
Lemma C7_loader_uri_and_columns_witness :
  exists g w',
    run sample_solve sample_uniform sample_store sample_rnd no_fault = (Returned g, w')
    /\ (uri = "mongodb://localhost:27017/movies.movie_ratings?readPreference=primaryPreferred"
  /\ parse_uri uri = Some {| ns_host := "localhost:27017"; ns_database := "movies";
                             ns_collection := "movie_ratings" |}
  /\ In (EvLoad "com.mongodb.spark.sql" uri) w'.(trace)
  /\ (forall f u, In (EvLoad f u) w'.(trace) -> u = uri)
  /\ select ["user_id"; "movie_id"; "rating"] (load_collection sample_store key_in)
     = Some g.(g_ratings)
  /\ map fst g.(g_ratings).(schema) = ["user_id"; "movie_id"; "rating"]).
Proof.
  destruct (run sample_solve sample_uniform sample_store sample_rnd no_fault)
    as [[g | e] w'] eqn:E.
  - exists g, w'. split; [reflexivity |].
    exact (C7_loader_uri_and_columns sample_solve sample_uniform sample_store sample_rnd no_fault g w' E).
  - sample_returns E.
Defined.

(** The sample run returns, and it writes one table, as the amended C8 states. *)
Lemma C8_one_table_written_witness :
  exists g w',
    run sample_solve sample_uniform sample_store sample_rnd no_fault = (Returned g, w')
    /\ (length (List.filter is_save w'.(trace)) = 1%nat
  /\ (forall j ev, w'.(trace) !! j = Some ev -> is_save ev = true ->
                   j = 14%nat
                   /\ ev = EvSave "com.mongodb.spark.sql.DefaultSource" uri
                                  "user_recommendations" "overwrite" g.(g_userRecs))
  /\ w'.(trace) !! 11%nat = Some EvPrint
  /\ w'.(trace) !! 12%nat = Some (EvRecommend AllUsers 10)
  /\ w'.(trace) !! 14%nat
     = Some (EvSave "com.mongodb.spark.sql.DefaultSource" uri "user_recommendations"
                    "overwrite" g.(g_userRecs))
  /\ (forall j ev, w'.(trace) !! j = Some ev -> later_step ev = true -> (14 < j)%nat)
  /\ w'.(trace) !! 28%nat = Some EvStop).
Proof.
  destruct (run sample_solve sample_uniform sample_store sample_rnd no_fault)
    as [[g | e] w'] eqn:E.
  - exists g, w'. split; [reflexivity |].
    exact (C8_one_table_written sample_solve sample_uniform sample_store sample_rnd no_fault g w' E).
  - sample_returns E.
Defined.

(** Two sample runs on the same store, with the host's random number 0 in
    one and 5 in the other: both return, the split is as C6 states, and the
    second row of the ratings goes to training in the first run and to test
    in the second, so the two training tables differ. *)
Lemma C6_split_without_seed_witness :
  exists g1 w1 g2 w2,
    run sample_solve sample_uniform sample_store sample_rnd no_fault = (Returned g1, w1)
    /\ run sample_solve sample_uniform sample_store sample_rnd' no_fault = (Returned g2, w2)
    /\ (w1.(trace) !! 5%nat = Some (EvRandomSplit [(8 # 10)%Q; (2 # 10)%Q] None)
  /\ w1.(draws) = 1%nat
  /\ split_rows sample_uniform [(8 # 10)%Q; (2 # 10)%Q] (sample_rnd 0%nat mod 2 ^ 63) g1.(g_ratings)
     = Some [g1.(g_training); g1.(g_test)]
  /\ g1.(g_training).(rows)
     = sample sample_uniform (sample_rnd 0%nat mod 2 ^ 63) 0 (800 # 1000) 0 g1.(g_ratings).(rows)
  /\ g1.(g_test).(rows)
     = sample sample_uniform (sample_rnd 0%nat mod 2 ^ 63) (800 # 1000) (1000000 # 1000000) 0
              g1.(g_ratings).(rows)
  /\ g1.(g_ratings) = g2.(g_ratings)
  /\ (forall i r,
        NoDup g1.(g_ratings).(rows) ->
        g1.(g_ratings).(rows) !! i = Some r ->
        hit sample_uniform (sample_rnd 0%nat mod 2 ^ 63) 0 (800 # 1000) i = true ->
        hit sample_uniform (sample_rnd' 0%nat mod 2 ^ 63) 0 (800 # 1000) i = false ->
        g1.(g_training) <> g2.(g_training)))
    /\ g1.(g_training) <> g2.(g_training).
Proof.
  destruct (run sample_solve sample_uniform sample_store sample_rnd no_fault)
    as [[g1 | e1] w1] eqn:E1; [| sample_returns E1].
  destruct (run sample_solve sample_uniform sample_store sample_rnd' no_fault)
    as [[g2 | e2] w2] eqn:E2; [| sample_returns E2].
  exists g1, w1, g2, w2. split; [reflexivity |]. split; [reflexivity |].
  pose proof (C6_split_without_seed sample_solve sample_uniform sample_store no_fault
                sample_rnd sample_rnd' g1 w1 g2 w2 E1 E2) as T.
  split; [exact T |].
  destruct T as (_ & _ & _ & _ & _ & _ & Hdiff).
  assert (Hr : g1.(g_ratings).(rows)
               = [ [VInt 1; VInt 10; VDouble (4 # 1)]; [VInt 1; VInt 11; VDouble (3 # 1)];
                   [VInt 2; VInt 10; VDouble (5 # 1)]; [VInt 2; VInt 11; VDouble (1 # 1)];
                   [VInt 3; VInt 11; VDouble (2 # 1)]; [VInt 3; VInt 10; VDouble (4 # 1)];
                   [VInt 4; VInt 13; VDouble (5 # 1)] ]).
  { vm_compute in E1. injection E1 as <- _. reflexivity. }
  apply (Hdiff 1%nat [VInt 1; VInt 11; VDouble (3 # 1)]).
  - rewrite Hr.
    repeat (apply NoDup_cons_2;
            [rewrite list_elem_of_In; cbn [In]; intros H;
             repeat (destruct H as [H | H]; [discriminate H |]); exact H |]).
    apply NoDup_nil_2.
  - rewrite Hr. reflexivity.
  - vm_compute. reflexivity.
  - vm_compute. reflexivity.
Defined.

(** A sample run in which the engine fails call 20, the selection of the
    movie ids for the item subset: the run raises after 20 calls, and the
    collection, which held one old row, holds the new table. *)
Lemma C10_overwrite_before_later_steps_witness :
  exists o w',
    run sample_solve sample_uniform sample_store sample_rnd fault_at_20 = (o, w')
    /\ (((exists j ev, w'.(trace) !! j = Some ev /\ later_step ev = true)
   \/ ((exists e, o = Raised e) /\ (15 <= length w'.(trace))%nat)))
    /\ ((forall j ev, w'.(trace) !! j = Some ev -> later_step ev = true -> (14 < j)%nat)
  /\ exists df,
       w'.(trace) !! 12%nat = Some (EvRecommend AllUsers 10)
       /\ w'.(trace) !! 13%nat = Some (EvCast "recommendations" recs_type)
       /\ w'.(trace) !! 14%nat
          = Some (EvSave "com.mongodb.spark.sql.DefaultSource" uri
                         "user_recommendations" "overwrite" df)
       /\ w'.(store) !! key_out = Some df)
    /\ o = Raised (EngineFault 20)
    /\ sample_store !! key_out = Some sample_old_recs.
Proof.
  destruct (run sample_solve sample_uniform sample_store sample_rnd fault_at_20)
    as [o w'] eqn:E.
  exists o, w'. split; [reflexivity |].
  assert (Ho : o = Raised (EngineFault 20) /\ length w'.(trace) = 20%nat).
  { vm_compute in E. injection E as <- <-. split; reflexivity. }
  destruct Ho as [Ho Hlen].
  assert (Hyp : ((exists j ev, w'.(trace) !! j = Some ev /\ later_step ev = true)
   \/ ((exists e, o = Raised e) /\ (15 <= length w'.(trace))%nat))).
  { right. split; [exists (EngineFault 20); exact Ho | rewrite Hlen; lia]. }
  split; [exact Hyp |].
  split.
  - exact (C10_overwrite_before_later_steps sample_solve sample_uniform sample_store
             sample_rnd fault_at_20 o w' E Hyp).
  - split; [exact Ho | vm_compute; reflexivity].
Defined.


(** C5, as the claim states it, fails on the sample run: no training row
    has user 2 with movie 11, so the pair is in the test table only; user 2
    and movie 11 each occur in the training table, so the test row is
    scored and counts in the error. *)
Lemma C5_counterexample :
  exists g w',
    run sample_solve sample_uniform sample_store sample_rnd no_fault = (Returned g, w')
    /\ ~ unseen_pairs_excluded g.
Proof.
  destruct (run sample_solve sample_uniform sample_store sample_rnd no_fault)
    as [[g | e] w'] eqn:E; [| sample_returns E].
  exists g, w'. split; [reflexivity |].
  vm_compute in E. injection E as <- _. intros Hc.
  apply (Hc [VInt 2; VInt 11; VDouble (1 # 1)] 2 11 (VFloat (5 # 1))).
  - cbn [g_test rows In]. auto.
  - reflexivity.
  - reflexivity.
  - intros (r & Hr & Hu & Hi). cbn [g_training rows In] in Hr.
    repeat (destruct Hr as [<- | Hr]; [cbv in Hu, Hi; congruence |]).
    exact Hr.
  - cbn [g_predictions rows In app]. auto.
Qed.

(** C8, as the claim states it, fails on the sample run: one table is
    written, not two. *)
Lemma C8_counterexample :
  exists g w',
    run sample_solve sample_uniform sample_store sample_rnd no_fault = (Returned g, w')
    /\ ~ writes_two_after_recommending w'.(trace).
Proof.
  destruct (run sample_solve sample_uniform sample_store sample_rnd no_fault)
    as [[g | e] w'] eqn:E; [| sample_returns E].
  exists g, w'. split; [reflexivity |].
  vm_compute in E. injection E as _ <-. intros [Hcount _].
  cbn [trace List.filter is_save length] in Hcount. discriminate Hcount.
Qed.

(** The sample run returns: five of its seven ratings train the model and, of the two test rows, one survives. *)
Lemma X4_returns_need_training_and_test_rows_witness :
  exists g w',
    run sample_solve sample_uniform sample_store sample_rnd no_fault = (Returned g, w')
    /\ (g.(g_training).(rows) <> []
  /\ (exists row, In row g.(g_test).(rows) /\ warm g.(g_model) row = true)
  /\ (length g.(g_training).(rows) + length g.(g_test).(rows)
      <= length g.(g_ratings).(rows))%nat
  /\ (2 <= length g.(g_ratings).(rows))%nat).
Proof.
  destruct (run sample_solve sample_uniform sample_store sample_rnd no_fault)
    as [[g | e] w'] eqn:E.
  - exists g, w'. split; [reflexivity |].
    exact (X4_returns_need_training_and_test_rows sample_solve sample_uniform sample_store sample_rnd no_fault g w' E).
  - sample_returns E.
Defined.

(** The sample run returns, and the lists of its four tables are as X5 states. *)
Lemma X5_every_list_top10_sorted_distinct_witness :
  exists g w',
    run sample_solve sample_uniform sample_store sample_rnd no_fault = (Returned g, w')
    /\ ((forall t row,
      t = g.(g_userRecs) \/ t = g.(g_userSubsetRecs) -> In row t.(rows) ->
      exists u l, rec_list row = Some (u, l)
                  /\ (length l <= 10)%nat
                  /\ StronglySorted by_score_desc l
                  /\ NoDup (map fst l)
                  /\ forall i x, In (i, x) l -> x = g.(g_model).(score) u i)
  /\ (forall t row,
         t = g.(g_movieRecs) \/ t = g.(g_movieSubSetRecs) -> In row t.(rows) ->
         exists i l, rec_list row = Some (i, l)
                     /\ (length l <= 10)%nat
                     /\ StronglySorted by_score_desc l
                     /\ NoDup (map fst l)
                     /\ forall u x, In (u, x) l -> x = g.(g_model).(score) u i)).
Proof.
  destruct (run sample_solve sample_uniform sample_store sample_rnd no_fault)
    as [[g | e] w'] eqn:E.
  - exists g, w'. split; [reflexivity |].
    exact (X5_every_list_top10_sorted_distinct sample_solve sample_uniform sample_store sample_rnd no_fault g w' E).
  - sample_returns E.
Defined.

(** The sample run returns, and its subset tables are as X6 states. *)
Lemma X6_subset_tables_at_most_three_witness :
  exists g w',
    run sample_solve sample_uniform sample_store sample_rnd no_fault = (Returned g, w')
    /\ ((length g.(g_users).(rows) <= 3)%nat
  /\ (length g.(g_movies).(rows) <= 3)%nat
  /\ (length g.(g_userSubsetRecs).(rows) <= 3)%nat
  /\ (length g.(g_movieSubSetRecs).(rows) <= 3)%nat
  /\ (forall row, In row g.(g_userSubsetRecs).(rows) ->
        exists u l, rec_list row = Some (u, l) /\ In u g.(g_model).(userIds)
                    /\ exists r, In r g.(g_users).(rows) /\ as_int (cell 0 r) = Some u)
  /\ (forall row, In row g.(g_movieSubSetRecs).(rows) ->
        exists i l, rec_list row = Some (i, l) /\ In i g.(g_model).(itemIds)
                    /\ exists r, In r g.(g_movies).(rows) /\ as_int (cell 0 r) = Some i)).
Proof.
  destruct (run sample_solve sample_uniform sample_store sample_rnd no_fault)
    as [[g | e] w'] eqn:E.
  - exists g, w'. split; [reflexivity |].
    exact (X6_subset_tables_at_most_three sample_solve sample_uniform sample_store sample_rnd no_fault g w' E).
  - sample_returns E.
Defined.

(** The sample run returns, and the table it writes is as X7 states. *)
Lemma X7_one_row_per_trained_user_witness :
  exists g w',
    run sample_solve sample_uniform sample_store sample_rnd no_fault = (Returned g, w')
    /\ (Forall2 (fun row u => exists l, rec_list row = Some (u, l))
          g.(g_userRecs).(rows) g.(g_model).(userIds)
  /\ NoDup g.(g_model).(userIds)
  /\ (forall u, In u g.(g_model).(userIds)
                <-> exists r, In r g.(g_training).(rows) /\ as_int (cell 0 r) = Some u)
  /\ w'.(store) !! key_out = Some g.(g_userRecs)).
Proof.
  destruct (run sample_solve sample_uniform sample_store sample_rnd no_fault)
    as [[g | e] w'] eqn:E.
  - exists g, w'. split; [reflexivity |].
    exact (X7_one_row_per_trained_user sample_solve sample_uniform sample_store sample_rnd no_fault g w' E).
  - sample_returns E.
Defined.

(** The sample run returns, and its cast is as X8 states. *)
Lemma X8_cast_keeps_content_witness :
  exists g w',
    run sample_solve sample_uniform sample_store sample_rnd no_fault = (Returned g, w')
    /\ (Forall2 (fun row row' => rec_list row' = rec_list row /\ rec_list row <> None)
          (recommendForAllUsers g.(g_model) 10).(rows) g.(g_userRecs).(rows)).
Proof.
  destruct (run sample_solve sample_uniform sample_store sample_rnd no_fault)
    as [[g | e] w'] eqn:E.
  - exists g, w'. split; [reflexivity |].
    exact (X8_cast_keeps_content sample_solve sample_uniform sample_store sample_rnd no_fault g w' E).
  - sample_returns E.
Defined.

(** The sample run, and then a second run on the store it left, with
    another random number: the second run returns too, and the collection
    holds its table alone. *)
Lemma X2_second_run_replaces_first_witness :
  exists g1 w1 g2 w2,
    run sample_solve sample_uniform sample_store sample_rnd no_fault = (Returned g1, w1)
    /\ run sample_solve sample_uniform w1.(store) sample_rnd' no_fault = (Returned g2, w2)
    /\ (g2.(g_ratings) = g1.(g_ratings)
  /\ w2.(store) = <[key_out := g2.(g_userRecs)]> (delete key_out sample_store)
  /\ w2.(store) !! key_out = Some g2.(g_userRecs)).
Proof.
  destruct (run sample_solve sample_uniform sample_store sample_rnd no_fault)
    as [[g1 | e1] w1] eqn:E1; [| sample_returns E1].
  destruct (run sample_solve sample_uniform w1.(store) sample_rnd' no_fault)
    as [[g2 | e2] w2] eqn:E2.
  - exists g1, w1, g2, w2. split; [reflexivity |]. split; [exact E2 |].
    exact (X2_second_run_replaces_first sample_solve sample_uniform sample_store
             sample_rnd no_fault g1 w1 sample_rnd' no_fault g2 w2 E1 E2).
  - exfalso. vm_compute in E1. injection E1 as _ <-. vm_compute in E2. discriminate E2.
Defined.

(** A store without the collection of the ratings, and an engine that fails
    no call: the run stops at the selection. *)
Lemma X9_missing_fields_stop_at_select_witness :
  select ["user_id"; "movie_id"; "rating"] (load_collection ∅ key_in) = None
  /\ (forall n, (n <= 4)%nat -> no_fault n = false)
  /\ run sample_solve sample_uniform ∅ sample_rnd no_fault
     = (Raised (CallError (EvSelect ["user_id"; "movie_id"; "rating"])),
        {| store := ∅; stdout := [];
           session := Live "MovieRatings" [("spark.executor.memory", "4g")];
           levels := [("org", "WARN")]; entropy := sample_rnd; draws := 0;
           trace := [ EvSparkContext "MovieRatings" [("spark.executor.memory", "4g")];
                      EvSetLevel "org" "WARN"; EvSQLContext;
                      EvLoad "com.mongodb.spark.sql" uri ];
           faults := no_fault |}).
Proof.
  assert (Hsel : select ["user_id"; "movie_id"; "rating"] (load_collection ∅ key_in) = None)
    by reflexivity.
  assert (Hf : forall n, (n <= 4)%nat -> no_fault n = false) by (intros n _; reflexivity).
  split; [exact Hsel |]. split; [exact Hf |].
  exact (X9_missing_fields_stop_at_select sample_solve sample_uniform ∅ sample_rnd no_fault
           Hsel Hf).
Defined.
